(** * Quiz solver pipeline: [main.py] and [api/index.py]

    A shallow embedding of the two variants of the quiz-solving service.
    Both files share the page navigation, payload extraction, quiz
    parsing and answer submission code; they differ in the PDF stage:
    [main.py] reads the table with pdfplumber and sums it with pandas,
    [api/index.py] reads it with PyMuPDF and sums it in a loop.

    Conventions of the embedding:
    - a Python [str] is represented by its UTF-8 encoding as a [string];
      character classes are decided on ASCII (the Unicode database that
      Python consults for code points above 127 is not part of the model);
    - a Python [float] is an IEEE 754 binary64 value, [spec_float] with
      precision 53 and maximal exponent 1024;
    - a call that can raise returns a [result]; the body of [solve_quiz]
      runs in a small monad with exceptions, early [return] and a log;
      the exceptions are those that derive from [Exception] (the
      cancellation of the task is not a failure of a stage and is not
      modelled);
    - everything the program obtains from outside (browser, HTML parser,
      HTTP, file system, PDF readers) is a field of the record [World];
      [base64], [re], [float] and the pandas calls are modelled by
      functions. *)

From Stdlib Require Import String Ascii List NArith ZArith Bool Lia.
From Stdlib Require Import SpecFloat.
Import ListNotations.

Set Warnings "-register-all".
Local Open Scope string_scope.
Local Open Scope list_scope.

(** ** Python exceptions and results *)

Module Py.

(** The exception classes that the program names in a handler or that a
    library call of the program raises.  All of them derive from
    [Exception]. *)
Inductive exn : Type :=
  | Exception_            (* any other subclass of Exception *)
  | KeyError
  | ValueError
  | TypeError
  | IndexError
  | AttributeError
  | IOError
  | RequestException      (* requests.exceptions.RequestException(IOError) *)
  | HTTPError             (* requests.exceptions.HTTPError, from raise_for_status *)
  | JSONDecodeError       (* json.JSONDecodeError(ValueError) *)
  | RequestsJSONDecodeError (* requests' own, both RequestException and json.JSONDecodeError *)
  | BinasciiError         (* binascii.Error(ValueError) *)
  | UnicodeDecodeError    (* UnicodeDecodeError(ValueError) *)
  | PDFSyntaxError
  | PlaywrightError
  | ValidationError.

Definition exn_eqb (a b : exn) : bool :=
  match a, b with
  | Exception_, Exception_ | KeyError, KeyError | ValueError, ValueError
  | TypeError, TypeError | IndexError, IndexError
  | AttributeError, AttributeError | IOError, IOError
  | RequestException, RequestException | HTTPError, HTTPError
  | JSONDecodeError, JSONDecodeError
  | RequestsJSONDecodeError, RequestsJSONDecodeError
  | BinasciiError, BinasciiError | UnicodeDecodeError, UnicodeDecodeError
  | PDFSyntaxError, PDFSyntaxError | PlaywrightError, PlaywrightError
  | ValidationError, ValidationError => true
  | _, _ => false
  end.

(** [isinstance e cls]: the class of [e] is [cls] or derives from it. *)
Definition isinstance (e cls : exn) : bool :=
  match cls with
  | Exception_ => true
  | IOError =>
      match e with
      | IOError | RequestException | HTTPError | RequestsJSONDecodeError => true
      | _ => false
      end
  | RequestException =>
      match e with
      | RequestException | HTTPError | RequestsJSONDecodeError => true
      | _ => false
      end
  | ValueError =>
      match e with
      | ValueError | JSONDecodeError | RequestsJSONDecodeError
      | BinasciiError | UnicodeDecodeError | ValidationError => true
      | _ => false
      end
  | JSONDecodeError =>
      match e with
      | JSONDecodeError | RequestsJSONDecodeError => true
      | _ => false
      end
  | _ => exn_eqb e cls
  end.

Inductive result (A : Type) : Type :=
  | Ok (a : A)
  | Raise (e : exn).
Arguments Ok {A} a.
Arguments Raise {A} e.

Definition rbind {A B} (r : result A) (k : A -> result B) : result B :=
  match r with
  | Ok a => k a
  | Raise e => Raise e
  end.

End Py.
Import Py.

(** ** Strings *)

Module PyStr.

Definition code (c : ascii) : N := N_of_ascii c.

Definition in_range (lo hi : N) (c : ascii) : bool :=
  ((lo <=? code c) && (code c <=? hi))%N.

Definition is_digit (c : ascii) : bool := in_range 48 57 c.
Definition is_upper (c : ascii) : bool := in_range 65 90 c.
Definition is_lower (c : ascii) : bool := in_range 97 122 c.
Definition is_alpha (c : ascii) : bool := is_upper c || is_lower c.
Definition is_alnum (c : ascii) : bool := is_alpha c || is_digit c.
Definition is_ascii (c : ascii) : bool := (code c <? 128)%N.

(** ASCII white space as [float()] strips it: TAB..CR, FS..US and SPACE. *)
Definition is_space (c : ascii) : bool := in_range 9 13 c || in_range 28 32 c.

Definition lower (c : ascii) : ascii :=
  if is_upper c then ascii_of_N (code c + 32) else c.

Fixpoint lowercase (s : string) : string :=
  match s with
  | EmptyString => EmptyString
  | String c t => String (lower c) (lowercase t)
  end.

(** [needle in hay] *)
Fixpoint contains (needle hay : string) : bool :=
  if prefix needle hay then true
  else match hay with
       | EmptyString => false
       | String _ t => contains needle t
       end.

(** [s.split(sep)] for a separator of one character. *)
Fixpoint split (sep : ascii) (s : string) : list string :=
  match s with
  | EmptyString => [EmptyString]
  | String c t =>
      if Ascii.eqb c sep then EmptyString :: split sep t
      else match split sep t with
           | [] => [String c EmptyString]
           | h :: r => String c h :: r
           end
  end.

Fixpoint lstrip (s : string) : string :=
  match s with
  | String c t => if is_space c then lstrip t else s
  | EmptyString => EmptyString
  end.

Fixpoint rstrip (s : string) : string :=
  match s with
  | EmptyString => EmptyString
  | String c t =>
      match rstrip t with
      | EmptyString => if is_space c then EmptyString else String c EmptyString
      | t' => String c t'
      end
  end.

Definition strip (s : string) : string := rstrip (lstrip s).

(** Truth value of a [str]: the empty string is false. *)
Definition truthy (s : string) : bool :=
  match s with
  | EmptyString => false
  | String _ _ => true
  end.

End PyStr.

(** ** Floating-point numbers and [float(str)] *)

Module PyFloat.
Import PyStr.

Definition float : Type := spec_float.
Definition prec : Z := 53.
Definition emax : Z := 1024.

Definition fadd : float -> float -> float := SFadd prec emax.
Definition fzero : float := S754_zero false.
Definition nan : float := S754_nan.

Definition is_nan (f : float) : bool :=
  match f with
  | S754_nan => true
  | _ => false
  end.

(** [float(n)] for a Python [int]. *)
Definition of_int (z : Z) : float := binary_normalize prec emax z 0 false.

(** The binary64 value nearest to [m * 10^e], ties to even. *)
Definition of_decimal (neg : bool) (m : N) (e : Z) : float :=
  match m with
  | N0 => S754_zero neg
  | Npos p =>
      match e with
      | Zneg k =>
          let '(mz, ez, lz) :=
            SFdiv_core_binary prec emax (Zpos p) 0 (Zpos (Pos.pow 10 k)) 0 in
          binary_round_aux prec emax neg mz ez lz
      | Z0 => binary_round prec emax neg p 0
      | Zpos k => binary_round prec emax neg (p * Pos.pow 10 k) 0
      end
  end.

(** A run of decimal digits: its value on top of [acc], the number of
    digits read, and the rest of the input. *)
Fixpoint digits (acc : N) (n : Z) (s : string) : N * Z * string :=
  match s with
  | String c t =>
      if is_digit c then digits (10 * acc + (code c - 48))%N (n + 1)%Z t
      else (acc, n, s)
  | EmptyString => (acc, n, s)
  end.

Definition sign (s : string) : bool * string :=
  match s with
  | String "-" t => (true, t)
  | String "+" t => (false, t)
  | _ => (false, s)
  end.

(** [number [exponent]] of the grammar of [float()], to the end of the
    input: digits, an optional point and more digits (one digit at
    least), then an optional [e] or [E] with a signed, non-empty run
    of digits. *)
Definition floatnumber (neg : bool) (s : string) : option float :=
  let '(m1, n1, r1) := digits 0 0 s in
  let '(m, n2, r2) :=
    match r1 with
    | String "." t => digits m1 0 t
    | _ => (m1, 0%Z, r1)
    end in
  if (n1 + n2 =? 0)%Z then None
  else match r2 with
       | EmptyString => Some (of_decimal neg m (- n2))
       | String c t =>
           if Ascii.eqb (lower c) "e" then
             let '(eneg, t') := sign t in
             let '(x, n3, r3) := digits 0 0 t' in
             if (n3 =? 0)%Z then None
             else match r3 with
                  | EmptyString =>
                      let ex := if eneg then (- Z.of_N x)%Z else Z.of_N x in
                      Some (of_decimal neg m (ex - n2))
                  | String _ _ => None
                  end
           else None
       end.

Definition floatvalue (s : string) : option float :=
  let '(neg, t) := sign s in
  let w := lowercase t in
  if String.eqb w "inf" || String.eqb w "infinity" then Some (S754_infinity neg)
  else if String.eqb w "nan" then Some nan
  else floatnumber neg t.

(** An underscore is accepted between two digits only. *)
Fixpoint underscores_ok (prev : ascii) (s : string) : bool :=
  match s with
  | EmptyString => negb (Ascii.eqb prev "_")
  | String c t =>
      (if Ascii.eqb c "_" then is_digit prev
       else if Ascii.eqb prev "_" then is_digit c
       else true)
      && underscores_ok c t
  end.

Fixpoint remove_underscores (s : string) : string :=
  match s with
  | EmptyString => EmptyString
  | String c t =>
      if Ascii.eqb c "_" then remove_underscores t
      else String c (remove_underscores t)
  end.

(** [float(s)] for a [str]: [None] stands for [ValueError]. *)
Definition float_of_str (s : string) : option float :=
  let t := strip s in
  if underscores_ok zero t then floatvalue (remove_underscores t) else None.

(** Equality of two numbers as values: the two zeros are the same
    number. *)
Definition same_number (x y : float) : Prop :=
  x = y \/ (exists s, x = S754_zero s) /\ (exists s, y = S754_zero s).

End PyFloat.

(** ** Tables extracted from a PDF page *)

Module Table.
Import PyStr PyFloat.

(** A cell is a [str] or [None]; a table is a list of rows, the first
    of which is the header.  Both PDF libraries return rows of one
    common length. *)
Abbreviation cell := (option string) (only parsing).
Abbreviation row := (list (option string)) (only parsing).
Abbreviation table := (list (list (option string))) (only parsing).

Definition is_value (c : cell) : bool :=
  match c with
  | Some s => String.eqb s "value"
  | None => false
  end.

Definition rectangular (t : table) : Prop :=
  forall h rows, t = h :: rows -> Forall (fun r => length r = length h) rows.

(** A Python number: the [int] that [total_sum] starts as, or a float. *)
Inductive pynum : Type :=
  | PyInt (z : Z)
  | PyFloat (f : float).

Definition to_float (n : pynum) : float :=
  match n with
  | PyInt z => of_int z
  | PyFloat f => f
  end.

(** [total += f] for a float [f]. *)
Definition iadd (total : pynum) (f : float) : pynum :=
  PyFloat (fadd (to_float total) f).

(** [float(c)] for a cell: [None] is a [TypeError], an unparsable
    string a [ValueError]. *)
Definition float_ (c : cell) : result float :=
  match c with
  | None => Raise TypeError
  | Some s =>
      match float_of_str s with
      | Some f => Ok f
      | None => Raise ValueError
      end
  end.

(** [l[i]] *)
Definition getitem {A} (l : list A) (i : nat) : result A :=
  match nth_error l i with
  | Some a => Ok a
  | None => Raise IndexError
  end.

End Table.

(** ** [api/index.py]: the PyMuPDF variant of the table sum *)

Module IndexTable.
Import PyStr PyFloat Table.

(** [header.index("value")]; [None] stands for [ValueError]. *)
Fixpoint index_value (header : row) : option nat :=
  match header with
  | [] => None
  | c :: rest =>
      if is_value c then Some O
      else option_map S (index_value rest)
  end.

(** The loop over the data rows, lines 131-137:
    [try: total_sum += float(row[value_index])]
    [except (ValueError, TypeError): continue]. *)
Fixpoint sum_rows (value_index : nat) (total_sum : pynum) (rows : list row)
  : result pynum :=
  match rows with
  | [] => Ok total_sum
  | r :: rest =>
      match rbind (getitem r value_index) float_ with
      | Ok f => sum_rows value_index (iadd total_sum f) rest
      | Raise e =>
          if isinstance e ValueError || isinstance e TypeError
          then sum_rows value_index total_sum rest
          else Raise e
      end
  end.

(** What lines 121-139 do with the extracted table. *)
Inductive table_outcome : Type :=
  | Answer (a : pynum)        (* [answer = total_sum] *)
  | NoValueColumn             (* logged, [return] *)
  | Raises (e : exn).         (* propagates to the enclosing handlers *)

Definition table_answer (table_data : table) : table_outcome :=
  match getitem table_data 0 with
  | Raise e => Raises e
  | Ok header =>
      let rows := tl table_data in
      match index_value header with
      | None => NoValueColumn
      | Some value_index =>
          match sum_rows value_index (PyInt 0) rows with
          | Ok total_sum => Answer total_sum
          | Raise e => Raises e
          end
      end
  end.

End IndexTable.

(** ** [main.py]: the pandas variant of the table sum *)

Module Pandas.
Import PyStr PyFloat Table.

(** White space as the number parser of pandas skips it. *)
Definition is_cspace (c : ascii) : bool :=
  in_range 9 13 c || Ascii.eqb c " ".

Fixpoint lskip (s : string) : string :=
  match s with
  | String c t => if is_cspace c then lskip t else s
  | EmptyString => EmptyString
  end.

Fixpoint rskip (s : string) : string :=
  match s with
  | EmptyString => EmptyString
  | String c t =>
      match rskip t with
      | EmptyString => if is_cspace c then EmptyString else String c EmptyString
      | t' => String c t'
      end
  end.

(** The conversion of one string by [pd.to_numeric]: a signed decimal
    numeral between optional white space, or one of the spellings of
    infinity.  No underscores, no [nan].  The value is taken to be the
    nearest binary64 number; pandas' own parser may differ from it in
    the last place on long numerals. *)
Definition floatify (s : string) : option float :=
  let '(neg, t) := sign (rskip (lskip s)) in
  match floatnumber neg t with
  | Some f => Some f
  | None =>
      let '(ineg, w) := sign s in
      let w := lowercase w in
      if String.eqb w "inf" || String.eqb w "infinity"
      then Some (S754_infinity ineg) else None
  end.

(** A frame built from a list of rows: every row has as many cells as
    there are column labels. *)
Record DataFrame : Type := { columns : list cell; data : list row }.

Definition max_len (rows : list row) : nat :=
  fold_right (fun r m => Nat.max (length r) m) O rows.

Definition pad (n : nat) (r : row) : row :=
  r ++ repeat None (n - length r).

(** [pd.DataFrame(rows, columns=columns)]: with no rows an empty frame;
    otherwise short rows are filled with [None], and the width of the
    data must be the number of labels ([ValueError] if not). *)
Definition mkDataFrame (rows : list row) (cols : list cell) : result DataFrame :=
  match rows with
  | [] => Ok {| columns := cols; data := [] |}
  | _ :: _ =>
      if Nat.eqb (max_len rows) (length cols)
      then Ok {| columns := cols; data := map (pad (length cols)) rows |}
      else Raise ValueError
  end.

(** The positions of the label ["value"]. *)
Fixpoint positions (i : nat) (cols : list cell) : list nat :=
  match cols with
  | [] => []
  | c :: rest =>
      if is_value c then i :: positions (S i) rest
      else positions (S i) rest
  end.

Definition column (df : DataFrame) (i : nat) : list cell :=
  map (fun r => nth i r None) (data df).

(** [df['value']]: a [KeyError] without such a label, a one-dimensional
    [Series] for a label that occurs once, a two-dimensional frame for
    a label that occurs several times. *)
Inductive selection : Type :=
  | Series (values : list cell)
  | Frame (cols : list (list cell)).

Definition getitem_value (df : DataFrame) : result selection :=
  match positions O (columns df) with
  | [] => Raise KeyError
  | [i] => Ok (Series (column df i))
  | ps => Ok (Frame (map (column df) ps))
  end.

Definition coerce (c : cell) : float :=
  match c with
  | None => nan
  | Some s =>
      match floatify s with
      | Some f => f
      | None => nan
      end
  end.

(** [pd.to_numeric(arg, errors='coerce')]: a [TypeError] for an argument
    that is not one-dimensional. *)
Definition to_numeric (arg : selection) : result (list float) :=
  match arg with
  | Series values => Ok (map coerce values)
  | Frame _ => Raise TypeError
  end.

Definition fillna (v : float) (s : list float) : list float :=
  map (fun f => if is_nan f then v else f) s.

(** [Series.sum()], taken as the binary64 additions from left to right,
    starting from zero. *)
Definition sum (s : list float) : float := fold_left fadd s fzero.

End Pandas.

Module MainTable.
Import PyStr PyFloat Table Pandas.

(** Lines 122-124, for a table that is not empty:
    [df = pd.DataFrame(table[1:], columns=table[0])]
    [df['value'] = pd.to_numeric(df['value'], errors='coerce').fillna(0)]
    [answer = df['value'].sum()]. *)
Definition table_answer (table : Table.table) : result pynum :=
  rbind (getitem table 0) (fun header =>
  rbind (mkDataFrame (tl table) header) (fun df =>
  rbind (getitem_value df) (fun sel =>
  rbind (to_numeric sel) (fun numeric =>
  Ok (PyFloat (sum (fillna fzero numeric))))))).

End MainTable.

(** ** [base64.b64decode] and [bytes.decode('utf-8')] *)

Module Codec.
Import PyStr.

Definition b64_value (c : ascii) : option N :=
  if is_upper c then Some (code c - 65)%N
  else if is_lower c then Some (code c - 97 + 26)%N
  else if is_digit c then Some (code c - 48 + 52)%N
  else if Ascii.eqb c "+" then Some 62%N
  else if Ascii.eqb c "/" then Some 63%N
  else None.

Definition emit (b : N) (r : result string) : result string :=
  rbind r (fun out => Ok (String (ascii_of_N b) out)).

(** [binascii.a2b_base64] without strict mode: characters outside the
    alphabet are skipped; a pad that completes a group of four ends the
    decoding; input that stops inside a group is an error. *)
Fixpoint a2b_base64 (quad_pos leftchar pads : N) (s : string) : result string :=
  match s with
  | EmptyString =>
      if (quad_pos =? 0)%N then Ok EmptyString else Raise BinasciiError
  | String c t =>
      if Ascii.eqb c "=" then
        if (2 <=? quad_pos)%N then
          if (4 <=? quad_pos + (pads + 1))%N then Ok EmptyString
          else a2b_base64 quad_pos leftchar (pads + 1)%N t
        else a2b_base64 quad_pos leftchar pads t
      else
        match b64_value c with
        | None => a2b_base64 quad_pos leftchar pads t
        | Some v =>
            match quad_pos with
            | 0%N => a2b_base64 1 v 0 t
            | 1%N => emit (N.lor (N.shiftl leftchar 2) (N.shiftr v 4))
                          (a2b_base64 2 (N.land v 15) 0 t)
            | 2%N => emit (N.lor (N.shiftl leftchar 4) (N.shiftr v 2))
                          (a2b_base64 3 (N.land v 3) 0 t)
            | _ => emit (N.lor (N.shiftl leftchar 6) v)
                        (a2b_base64 0 0 0 t)
            end
        end
  end.

Fixpoint all_ascii (s : string) : bool :=
  match s with
  | EmptyString => true
  | String c t => is_ascii c && all_ascii t
  end.

(** [base64.b64decode(s)] for a [str]: a [ValueError] unless [s] is
    ASCII, then the decoding above. *)
Definition b64decode (s : string) : result string :=
  if all_ascii s then a2b_base64 0 0 0 s else Raise ValueError.

Definition cont (c : ascii) : bool := in_range 128 191 c.

(** Well-formed UTF-8: shortest forms only, no surrogates, nothing
    above U+10FFFF. *)
Fixpoint utf8_valid (s : string) : bool :=
  match s with
  | EmptyString => true
  | String c0 t0 =>
      if is_ascii c0 then utf8_valid t0
      else
        match t0 with
        | EmptyString => false
        | String c1 t1 =>
            if in_range 194 223 c0 then cont c1 && utf8_valid t1
            else
              match t1 with
              | EmptyString => false
              | String c2 t2 =>
                  if in_range 224 239 c0 then
                    (if (code c0 =? 224)%N then in_range 160 191 c1
                     else if (code c0 =? 237)%N then in_range 128 159 c1
                     else cont c1)
                    && cont c2 && utf8_valid t2
                  else
                    match t2 with
                    | EmptyString => false
                    | String c3 t3 =>
                        in_range 240 244 c0
                        && (if (code c0 =? 240)%N then in_range 144 191 c1
                            else if (code c0 =? 244)%N then in_range 128 143 c1
                            else cont c1)
                        && cont c2 && cont c3 && utf8_valid t3
                    end
              end
        end
  end.

(** [b.decode('utf-8')]: the text, represented by the same bytes, or a
    [UnicodeDecodeError]. *)
Definition decode_utf8 (b : string) : result string :=
  if utf8_valid b then Ok b else Raise UnicodeDecodeError.

End Codec.

(** ** The URL pattern and [re.findall] *)

Module Re.
Import PyStr.

(** [\w] *)
Definition is_word (c : ascii) : bool := is_alnum c || Ascii.eqb c "_".

(** [[\da-fA-F]] *)
Definition is_hex (c : ascii) : bool :=
  is_digit c || in_range 97 102 c || in_range 65 70 c.

(** [[-\w.]] *)
Definition is_url_char (c : ascii) : bool :=
  Ascii.eqb c "-" || is_word c || Ascii.eqb c ".".

(** The longest prefix matched by [(?:[-\w.]|(?:%[\da-fA-F]{2}))*] and
    what follows it.  The two alternatives start with different
    characters and nothing follows the group, so the greedy match is
    the only one. *)
Fixpoint url_tail (s : string) : string * string :=
  match s with
  | EmptyString => (EmptyString, EmptyString)
  | String c t =>
      if is_url_char c then
        let '(m, r) := url_tail t in (String c m, r)
      else if Ascii.eqb c "%" then
        match t with
        | String h1 (String h2 t') =>
            if is_hex h1 && is_hex h2 then
              let '(m, r) := url_tail t' in
              (String c (String h1 (String h2 m)), r)
            else (EmptyString, s)
        | _ => (EmptyString, s)
        end
      else (EmptyString, s)
  end.

(** [s] without the prefix [p], if it starts with it. *)
Fixpoint strip_prefix (p s : string) : option string :=
  match p, s with
  | EmptyString, _ => Some s
  | String a p', String b s' =>
      if Ascii.eqb a b then strip_prefix p' s' else None
  | String _ _, EmptyString => None
  end.

Definition tail_after (scheme rest : string) : option string :=
  match strip_prefix "://" rest with
  | None => None
  | Some r =>
      match url_tail r with
      | (EmptyString, _) => None
      | (m, _) => Some (scheme ++ "://" ++ m)%string
      end
  end.

(** A match of [https?://(?:[-\w.]|(?:%[\da-fA-F]{2}))+] at the start
    of [s]. *)
Definition match_here (s : string) : option string :=
  match strip_prefix "http" s with
  | None => None
  | Some r =>
      match r with
      | String c r' =>
          if Ascii.eqb c "s" then
            match tail_after "https" r' with
            | Some u => Some u
            | None => tail_after "http" r
            end
          else tail_after "http" r
      | EmptyString => tail_after "http" r
      end
  end.

(** [re.findall]: the matches from left to right, the search resuming
    where the previous match ended. *)
Fixpoint findall_from (skip : nat) (s : string) : list string :=
  match s with
  | EmptyString => []
  | String _ t =>
      match skip with
      | S k => findall_from k t
      | O =>
          match match_here s with
          | Some u => u :: findall_from (String.length u - 1) t
          | None => findall_from O t
          end
      end
  end.

Definition findall (s : string) : list string := findall_from O s.

End Re.

(** ** Data of a run *)

Module Data.
Import PyStr PyFloat Table.

(** The pydantic model of the request. *)
Record QuizRequest : Type :=
  { email : string; secret : string; url : string }.

(** [submission_payload] *)
Record Payload : Type :=
  { p_email : string; p_secret : string; p_url : string; p_answer : pynum }.

(** A decoded JSON document; an object keeps its members in a list,
    looked up from the front. *)
Inductive json : Type :=
  | JNull
  | JBool (b : bool)
  | JInt (z : Z)
  | JFloat (f : float)
  | JStr (s : string)
  | JArr (items : list json)
  | JObj (members : list (string * json)).

(** Truth value of a decoded JSON value. *)
Definition json_truthy (j : json) : bool :=
  match j with
  | JNull => false
  | JBool b => b
  | JInt z => negb (z =? 0)%Z
  | JFloat (S754_zero _) => false
  | JFloat _ => true
  | JStr s => truthy s
  | JArr items => match items with [] => false | _ => true end
  | JObj members => match members with [] => false | _ => true end
  end.

Fixpoint lookup {A} (k : string) (l : list (string * A)) : option A :=
  match l with
  | [] => None
  | (k', v) :: rest => if String.eqb k k' then Some v else lookup k rest
  end.

(** [j.get(k)]: only a dict has the method. *)
Definition json_get (j : json) (k : string) : result (option json) :=
  match j with
  | JObj members => Ok (lookup k members)
  | _ => Raise AttributeError
  end.

(** [QuizRequest(email=..., secret=..., url=v)]: the field [url] is
    declared [str]; a value of another type is taken to be refused by
    the validation. *)
Definition mkQuizRequest (e s : string) (v : json) : result QuizRequest :=
  match v with
  | JStr u => Ok {| email := e; secret := s; url := u |}
  | _ => Raise ValidationError
  end.

(** The response of [requests.get] or [requests.post]. *)
Record Response : Type :=
  { status_code : Z; content : string; json_body : result json }.

(** [response.raise_for_status()] *)
Definition raise_for_status (r : Response) : result unit :=
  if ((400 <=? status_code r) && (status_code r <? 600))%Z
  then Raise HTTPError else Ok tt.

(** An anchor element with its attributes, and what the program reads
    of the parsed document. *)
Record Tag : Type := { attrs : list (string * string) }.
Record Soup : Type := { get_text : string; find_a : option Tag }.

(** [tag[k]] *)
Definition tag_getitem (t : Tag) (k : string) : result string :=
  match lookup k (attrs t) with
  | Some v => Ok v
  | None => Raise KeyError
  end.

(** A page of an opened PDF, as each library presents it. *)
Record PlumberPage : Type := { extract_table : result (option table) }.

(** What [page.find_tables()] returns: an object with a truth value of
    its own and the tables found, each to be read by [extract()]. *)
Record TableFinder : Type :=
  { finder_truthy : bool; finder_tables : list (result table) }.
Record FitzPage : Type := { find_tables : result TableFinder }.

(** [os.getenv(k)] *)
Definition getenv (environ : list (string * string)) (k : string) : option string :=
  lookup k environ.

(** [fastapi.BackgroundTasks]: the tasks added so far; every task of
    this program is a call of [solve_quiz]. *)
Record BackgroundTasks : Type := { tasks : list QuizRequest }.

Definition add_task (bt : BackgroundTasks) (q : QuizRequest) : BackgroundTasks :=
  {| tasks := tasks bt ++ [q] |}.

(** Everything a run obtains from outside. *)
Record World : Type :=
  { playwright_start : result unit;
    chromium_launch : result unit;
    new_page : result unit;
    goto : string -> result unit;
    (* page.evaluate('document.querySelector("#result + script").innerHTML') *)
    evaluate : string -> result string;
    page_content : string -> result string;
    BeautifulSoup : string -> result Soup;
    requests_get : string -> result Response;
    write_file : string -> string -> result unit;
    pdfplumber_open : string -> result (list PlumberPage);
    (* whether the module pdfplumber has the attribute PDFSyntaxError
       that a handler of main.py names *)
    pdfplumber_PDFSyntaxError : bool;
    fitz_open : string -> result (list FitzPage);
    requests_post : string -> Payload -> result Response }.

Inductive level : Type := INFO | WARNING | ERROR | CRITICAL.

(** The log messages of the program, by their content. *)
Inductive message : Type :=
  | MReceived (u : string)
  | MNavigated (u : string)
  | MNavigationFailed (u : string) (e : exn)
  | MDecoded
  | MFallback
  | MQuestionText (t : string)
  | MDownloadLink (l : string)
  | MSubmissionUrl (u : string)
  | MNoSubmissionUrl
  | MDetailsError (e : exn)
  | MAttempting
  | MDownloaded
  | MFewPages
  | MNoValueColumn
  | MCalculatedSum (a : pynum)
  | MNoTable
  | MDownloadFailed (e : exn)
  | MPdfFailed (e : exn)
  | MTableError (e : exn)
  | MNotRecognized
  | MSubmitting (p : Payload)
  | MResponse (j : json)
  | MCorrect
  | MNewQuizUrl (j : json)
  | MSeriesFinished
  | MIncorrect (reason : json)
  | MSubmitFailed (u : string) (e : exn)
  | MJsonFailed
  | MUnexpected (e : exn)
  | MBrowserClosed.

(** What a run does that can be observed. *)
Inductive event : Type :=
  | Log (l : level) (m : message)
  | PlaywrightStarted
  | PlaywrightStopped
  | BrowserLaunched
  | BrowserClosed
  | HttpGet (u : string)
  | FileWritten (name : string)
  | HttpPost (u : string) (p : Payload).

End Data.

(** ** The monad of a function body *)

Module Body.
Import Data.

(** The local state of one call of [solve_quiz]: the variable
    [browser] (whether it holds a browser), the [BackgroundTasks] object
    of line 170 if it was created, and the events so far. *)
Record state : Type :=
  { browser : bool;
    background_tasks : option BackgroundTasks;
    trace : list event }.

Definition init : state :=
  {| browser := false; background_tasks := None; trace := [] |}.

(** How a statement ends: falls through with a value, executes
    [return], or raises. *)
Inductive ctl (A : Type) : Type :=
  | Next (a : A)
  | Return_
  | Throw (e : exn).
Arguments Next {A} a.
Arguments Return_ {A}.
Arguments Throw {A} e.

Definition M (A : Type) : Type := state -> ctl A * state.

Definition ret {A} (a : A) : M A := fun s => (Next a, s).

Definition bind {A B} (m : M A) (k : A -> M B) : M B :=
  fun s =>
    match m s with
    | (Next a, s') => k a s'
    | (Return_, s') => (Return_, s')
    | (Throw e, s') => (Throw e, s')
    end.

Definition return_ {A} : M A := fun s => (Return_, s).
Definition raise {A} (e : exn) : M A := fun s => (Throw e, s).

Definition lift {A} (r : result A) : M A :=
  match r with
  | Ok a => ret a
  | Raise e => raise e
  end.

Definition emit (ev : event) : M unit :=
  fun s => (Next tt, {| browser := browser s;
                        background_tasks := background_tasks s;
                        trace := trace s ++ [ev] |}).

Definition log (l : level) (m : message) : M unit := emit (Log l m).

Definition set_browser : M unit :=
  fun s => (Next tt, {| browser := true;
                        background_tasks := background_tasks s;
                        trace := trace s |}).

Definition get_browser : M bool := fun s => (Next (browser s), s).

Definition set_background_tasks (bt : BackgroundTasks) : M unit :=
  fun s => (Next tt, {| browser := browser s;
                        background_tasks := Some bt;
                        trace := trace s |}).

(** [try: body except ...: handler]: [handlers e] is the first clause
    that matches [e], if any. *)
Definition try_except {A} (body : M A) (handlers : exn -> option (M A)) : M A :=
  fun s =>
    match body s with
    | (Throw e, s') =>
        match handlers e with
        | Some h => h s'
        | None => (Throw e, s')
        end
    | r => r
    end.

(** [try: body finally: fin]: [fin] runs however [body] ends, and the
    way [body] ended stands unless [fin] itself returns or raises. *)
Definition try_finally {A} (body : M A) (fin : M unit) : M A :=
  fun s =>
    match body s with
    | (c, s') =>
        match fin s' with
        | (Next _, s'') => (c, s'')
        | (Return_, s'') => (Return_, s'')
        | (Throw e, s'') => (Throw e, s'')
        end
    end.

(** The call of a function whose body is [m]: [return] and falling off
    the end both return [None]. *)
Definition call (m : M unit) (s : state) : result unit * state :=
  match m s with
  | (Next _, s') => (Ok tt, s')
  | (Return_, s') => (Ok tt, s')
  | (Throw e, s') => (Raise e, s')
  end.

End Body.

Declare Scope body_scope.
Delimit Scope body_scope with body.
Notation "x <- m ;; k" := (Body.bind m (fun x => k))
  (at level 61, m at next level, right associativity) : body_scope.
Notation "m ;; k" := (Body.bind m (fun _ => k))
  (at level 61, right associativity) : body_scope.

(** ** The stages that [main.py] and [api/index.py] have in common *)

Module Stages.
Import PyStr Table Codec Re Data Body.
Local Open Scope body_scope.

(** Browser and page navigation: [browser] is assigned as soon as the
    launch has succeeded; any failure is logged and ends the run. *)
Definition navigate (w : World) (u : string) : M unit :=
  try_except
    (lift (chromium_launch w) ;;
     set_browser ;;
     emit BrowserLaunched ;;
     lift (new_page w) ;;
     lift (goto w u) ;;
     log INFO (MNavigated u))
    (fun e => Some (log ERROR (MNavigationFailed u e) ;; return_)).

(** Content extraction: the second piece of the script text between
    backticks, decoded from base64 and then from UTF-8; on any
    exception the content of the page. *)
Definition extract_payload (w : World) (u : string) : M string :=
  try_except
    (script_content <- lift (evaluate w u) ;;
     base64_content <- lift (getitem (split "`" script_content) 1) ;;
     decoded_content <- lift (rbind (b64decode base64_content) decode_utf8) ;;
     log INFO MDecoded ;;
     ret decoded_content)
    (fun _ => Some (log WARNING MFallback ;; lift (page_content w u))).

(** The loop [for url in urls: if "submit" in url: ...; break]. *)
Fixpoint first_submit (urls : list string) : option string :=
  match urls with
  | [] => None
  | url :: rest =>
      if contains "submit" url then Some url else first_submit rest
  end.

(** Quiz detail extraction: the pair of [download_link] and
    [submission_url], or the end of the run. *)
Definition quiz_details (soup : Soup) (question_text : string)
  : M (option string * string) :=
  try_except
    (download_link <-
       match find_a soup with
       | Some a =>
           href <- lift (tag_getitem a "href") ;;
           log INFO (MDownloadLink href) ;;
           ret (Some href)
       | None => ret None
       end ;;
     let urls := findall question_text in
     match first_submit urls with
     | Some submission_url =>
         log INFO (MSubmissionUrl submission_url) ;;
         if truthy submission_url then ret (download_link, submission_url)
         else log WARNING MNoSubmissionUrl ;; return_
     | None => log WARNING MNoSubmissionUrl ;; return_
     end)
    (fun e => Some (log ERROR (MDetailsError e) ;; return_)).

(** The phrase that selects the PDF quiz, with its typographic quotes. *)
Definition marker : string := "sum of the “value” column".

Definition not_recognized {A} : M A :=
  log WARNING MNotRecognized ;; return_.

Definition option_truthy (o : option json) : bool :=
  match o with
  | Some j => json_truthy j
  | None => false
  end.

(** Lines 160-176 of [main.py]: what the run does with the decoded
    response. *)
Definition interpret (q : QuizRequest) (response_json : json) : M unit :=
  correct <- lift (json_get response_json "correct") ;;
  if option_truthy correct then
    log INFO MCorrect ;;
    next <- lift (json_get response_json "url") ;;
    match next with
    | Some v =>
        if json_truthy v then
          log INFO (MNewQuizUrl v) ;;
          new_quiz_request <- lift (mkQuizRequest (email q) (secret q) v) ;;
          (* background_tasks = BackgroundTasks()
             background_tasks.add_task(solve_quiz, new_quiz_request) *)
          set_background_tasks (add_task {| tasks := [] |} new_quiz_request)
        else log INFO MSeriesFinished
    | None => log INFO MSeriesFinished
    end
  else
    reason <- lift (json_get response_json "reason") ;;
    log WARNING
      (MIncorrect (match reason with
                   | Some r => r
                   | None => JStr "No reason provided."
                   end)).

(** Answer submission. *)
Definition submit_answer (w : World) (q : QuizRequest)
    (submission_url : string) (answer : option pynum) : M unit :=
  match answer with
  | None => ret tt
  | Some a =>
      let submission_payload :=
        {| p_email := email q; p_secret := secret q;
           p_url := url q; p_answer := a |} in
      try_except
        (log INFO (MSubmitting submission_payload) ;;
         emit (HttpPost submission_url submission_payload) ;;
         submission_response <-
           lift (requests_post w submission_url submission_payload) ;;
         lift (raise_for_status submission_response) ;;
         response_json <- lift (json_body submission_response) ;;
         log INFO (MResponse response_json) ;;
         interpret q response_json)
        (fun e =>
           if isinstance e RequestException
           then Some (log ERROR (MSubmitFailed submission_url e))
           else if isinstance e JSONDecodeError
           then Some (log ERROR MJsonFailed)
           else None)
  end.

(** [async with async_playwright() as p: body]: entering may raise;
    leaving stops playwright however [body] ends. *)
Definition async_with_playwright {A} (w : World) (body : M A) : M A :=
  lift (playwright_start w) ;;
  emit PlaywrightStarted ;;
  try_finally body (emit PlaywrightStopped).

(** The [finally] clause of [solve_quiz]: [if browser: await
    browser.close()] and the log line.  Closing is taken to succeed. *)
Definition close_browser : M unit :=
  b <- get_browser ;;
  if b then emit BrowserClosed ;; log INFO MBrowserClosed else ret tt.

(** The statements under [async with], given the stage that computes
    the answer. *)
Definition pipeline
    (quiz_solving : World -> string -> option string -> M (option pynum))
    (w : World) (quiz_request : QuizRequest) : M unit :=
  async_with_playwright w
    (navigate w (url quiz_request) ;;
     decoded_content <- extract_payload w (url quiz_request) ;;
     soup <- lift (BeautifulSoup w decoded_content) ;;
     let question_text := get_text soup in
     log INFO (MQuestionText (strip question_text)) ;;
     details <- quiz_details soup question_text ;;
     let download_link := fst details in
     let submission_url := snd details in
     answer <- quiz_solving w question_text download_link ;;
     submit_answer w quiz_request submission_url answer).

(** The body of [solve_quiz]: the pipeline under the handler
    [except Exception] and the [finally] clause. *)
Definition solve_quiz_body
    (quiz_solving : World -> string -> option string -> M (option pynum))
    (w : World) (quiz_request : QuizRequest) : M unit :=
  log INFO (MReceived (url quiz_request)) ;;
  try_finally
    (try_except
       (pipeline quiz_solving w quiz_request)
       (fun e => Some (log CRITICAL (MUnexpected e))))
    close_browser.

(** The endpoint [POST /quiz]. *)
Inductive reply : Type :=
  | Accepted (message : string)
  | HTTPException (status : Z) (detail : string).

Definition secret_matches (s : string) (SECRET : option string) : bool :=
  match SECRET with
  | Some v => String.eqb s v
  | None => false
  end.

Definition receive_quiz (SECRET : option string) (quiz_request : QuizRequest)
    (background_tasks : BackgroundTasks) : reply * BackgroundTasks :=
  if negb (secret_matches (secret quiz_request) SECRET)
  then (HTTPException 403 "Invalid secret", background_tasks)
  else (Accepted "Quiz received and is being processed.",
        add_task background_tasks quiz_request).

End Stages.

(** ** [main.py] *)

Module Main.
Import PyStr Table Data Body Stages.
Local Open Scope body_scope.

(** [SECRET = os.getenv("SECRET")], read from the environment of the
    process once the [.env] file has been loaded. *)
Definition SECRET (environ : list (string * string)) : option string :=
  getenv environ "SECRET".

(** Quiz solving logic, lines 102-142.  The second handler names
    [pdfplumber.PDFSyntaxError]: when an exception reaches it and the
    module has no such attribute, evaluating the handler raises an
    [AttributeError] in place of the exception. *)
Definition quiz_solving (w : World) (question_text : string)
    (download_link : option string) : M (option pynum) :=
  match download_link with
  | Some link =>
      if contains marker question_text && truthy link then
        try_except
          (log INFO MAttempting ;;
           emit (HttpGet link) ;;
           pdf_response <- lift (requests_get w link) ;;
           lift (raise_for_status pdf_response) ;;
           lift (write_file w "data.pdf" (content pdf_response)) ;;
           emit (FileWritten "data.pdf") ;;
           log INFO MDownloaded ;;
           pages <- lift (pdfplumber_open w (content pdf_response)) ;;
           if (length pages <? 2)%nat then log ERROR MFewPages ;; return_
           else
             page_two <- lift (getitem pages 1) ;;
             table <- lift (extract_table page_two) ;;
             match table with
             | Some (header :: rows) =>
                 answer <- lift (MainTable.table_answer (header :: rows)) ;;
                 log INFO (MCalculatedSum answer) ;;
                 ret (Some answer)
             | _ => log WARNING MNoTable ;; return_
             end)
          (fun e =>
             if isinstance e RequestException
             then Some (log ERROR (MDownloadFailed e) ;; return_)
             else if negb (pdfplumber_PDFSyntaxError w)
             then Some (raise AttributeError)
             else if isinstance e IOError || isinstance e PDFSyntaxError
             then Some (log ERROR (MPdfFailed e) ;; return_)
             else if isinstance e KeyError || isinstance e ValueError
             then Some (log ERROR (MTableError e) ;; return_)
             else None)
      else not_recognized
  | None => not_recognized
  end.

Definition solve_quiz (w : World) (quiz_request : QuizRequest)
  : state -> result unit * state :=
  call (solve_quiz_body quiz_solving w quiz_request).

Definition receive_quiz := Stages.receive_quiz.

End Main.

(** ** [api/index.py] *)

Module Index.
Import PyStr Table Data Body Stages.
Local Open Scope body_scope.

Definition SECRET (environ : list (string * string)) : option string :=
  getenv environ "SECRET".

(** Quiz solving logic, lines 101-154. *)
Definition quiz_solving (w : World) (question_text : string)
    (download_link : option string) : M (option pynum) :=
  match download_link with
  | Some link =>
      if contains marker question_text && truthy link then
        try_except
          (log INFO MAttempting ;;
           emit (HttpGet link) ;;
           pdf_response <- lift (requests_get w link) ;;
           lift (raise_for_status pdf_response) ;;
           pdf_document <- lift (fitz_open w (content pdf_response)) ;;
           log INFO MDownloaded ;;
           if (length pdf_document <? 2)%nat then log ERROR MFewPages ;; return_
           else
             page_two <- lift (getitem pdf_document 1) ;;
             tables <- lift (find_tables page_two) ;;
             if finder_truthy tables then
               first <- lift (getitem (finder_tables tables) 0) ;;
               table_data <- lift first ;;
               match IndexTable.table_answer table_data with
               | IndexTable.Answer answer =>
                   log INFO (MCalculatedSum answer) ;;
                   ret (Some answer)
               | IndexTable.NoValueColumn =>
                   log ERROR MNoValueColumn ;; return_
               | IndexTable.Raises e => raise e
               end
             else log WARNING MNoTable ;; return_)
          (fun e =>
             if isinstance e RequestException
             then Some (log ERROR (MDownloadFailed e) ;; return_)
             else Some (log ERROR (MPdfFailed e) ;; return_))
      else not_recognized
  | None => not_recognized
  end.

Definition solve_quiz (w : World) (quiz_request : QuizRequest)
  : state -> result unit * state :=
  call (solve_quiz_body quiz_solving w quiz_request).

Definition receive_quiz := Stages.receive_quiz.

End Index.

(** ** The server around the endpoint *)

Module Server.
Import Data Body Stages.

(** The two programs. *)
Inductive variant : Type := main_py | index_py.

Definition solve_quiz (v : variant) : World -> QuizRequest -> state -> result unit * state :=
  match v with
  | main_py => Main.solve_quiz
  | index_py => Index.solve_quiz
  end.

(** One request to [POST /quiz]: the framework hands the endpoint a
    fresh [BackgroundTasks]; after a normal reply it runs the tasks of
    that object, each from a fresh local state; after an
    [HTTPException] it runs nothing.  What a run leaves in its own
    local variables is not seen by the framework. *)
Definition handle (v : variant) (w : World) (SECRET : option string)
    (quiz_request : QuizRequest) : reply * list (QuizRequest * (result unit * state)) :=
  match receive_quiz SECRET quiz_request {| tasks := [] |} with
  | (Accepted m, bt) =>
      (Accepted m, map (fun q => (q, solve_quiz v w q init)) (tasks bt))
  | (HTTPException c d, _) => (HTTPException c d, [])
  end.

End Server.

(** * Vocabulary of the properties *)

Module Props.
Import PyStr PyFloat Table Re Data Body Stages.

(** The cells of the column named "value", the first one of that name
    if there are several. *)
Definition value_cells (header : row) (rows : list row) : list cell :=
  match IndexTable.index_value header with
  | Some i => map (fun r => nth i r None) rows
  | None => []
  end.

(** The numbers of the cells that [float()] accepts, in order. *)
Definition coerced (cells : list cell) : list float :=
  flat_map (fun c => match float_ c with Ok f => [f] | Raise _ => [] end) cells.

(** Their sum, accumulated from the integer zero. *)
Definition sum_of (fs : list float) : pynum := fold_left iadd fs (PyInt 0).





(** The table of the scenario: header [id, value] and three rows. *)
Definition scenario_header : row := [Some "id"; Some "value"].
Definition scenario_rows : list row :=
  [[Some "1"; Some "10"]; [Some "2"; Some "abc"]; [Some "3"; Some "5.5"]].

(** 15.5 *)
Definition f15_5 : float := S754_finite false 8725724278030336 (-49).

(** A string put together from single characters accepted by [ok] and
    from groups of a percent sign and two hexadecimal digits. *)
Fixpoint items (ok : ascii -> bool) (s : string) : bool :=
  match s with
  | EmptyString => true
  | String c t =>
      if ok c then items ok t
      else if Ascii.eqb c "%" then
        match t with
        | String h1 (String h2 t') => Re.is_hex h1 && Re.is_hex h2 && items ok t'
        | _ => false
        end
      else false
  end.


(** The scheme [http] or [https], [://], and one or more items. *)
Definition url_shape (ok : ascii -> bool) (u : string) : Prop :=
  exists scheme rest,
    u = (scheme ++ "://" ++ rest)%string
    /\ (scheme = "http" \/ scheme = "https")
    /\ rest <> EmptyString
    /\ items ok rest = true.

(** [u] occurs in [text]. *)
Definition occurs_in (u text : string) : Prop :=
  exists before after, text = (before ++ u ++ after)%string.

(** *** Reading a trace *)

Definition is_post (e : event) : bool :=
  match e with HttpPost _ _ => true | _ => false end.

Definition is_launch (e : event) : bool :=
  match e with BrowserLaunched => true | _ => false end.

Definition is_close (e : event) : bool :=
  match e with BrowserClosed => true | _ => false end.

(** The number of events of a kind. *)
Definition count (kind : event -> bool) (tr : list event) : nat :=
  length (filter kind tr).

(** The events before and after the first event of a kind. *)
Fixpoint before (kind : event -> bool) (tr : list event) : list event :=
  match tr with
  | [] => []
  | e :: rest => if kind e then [] else e :: before kind rest
  end.

Fixpoint after (kind : event -> bool) (tr : list event) : list event :=
  match tr with
  | [] => []
  | e :: rest => if kind e then rest else after kind rest
  end.

(** The first submission of a trace. *)
Fixpoint first_post (tr : list event) : option (string * Payload) :=
  match tr with
  | [] => None
  | HttpPost u p :: _ => Some (u, p)
  | _ :: rest => first_post rest
  end.

(** The submission URLs and the sums that the log reports. *)
Definition found_urls (tr : list event) : list string :=
  flat_map (fun e => match e with
                     | Log INFO (MSubmissionUrl u) => [u]
                     | _ => []
                     end) tr.

Definition computed_sums (tr : list event) : list pynum :=
  flat_map (fun e => match e with
                     | Log INFO (MCalculatedSum a) => [a]
                     | _ => []
                     end) tr.

(** The run went as far as downloading, computing or submitting. *)
Definition is_activity (e : event) : bool :=
  match e with
  | HttpGet _ | HttpPost _ _ | Log _ (MCalculatedSum _) => true
  | _ => false
  end.

(** The run went as far as parsing the page. *)
Definition is_question (e : event) : bool :=
  match e with
  | Log _ (MQuestionText _) => true
  | _ => false
  end.

Definition is_details_error (e : event) : bool :=
  match e with
  | Log ERROR (MDetailsError KeyError) => true
  | _ => false
  end.

(** The payload that a run for [q] submits with answer [a]. *)
Definition payload_of (q : QuizRequest) (a : pynum) : Payload :=
  {| p_email := email q; p_secret := secret q; p_url := url q; p_answer := a |}.

(** The trace of one run of a variant. *)
Definition run_trace (v : Server.variant) (w : World) (q : QuizRequest)
  : list event :=
  trace (snd (Server.solve_quiz v w q init)).

(** *** Properties of a trace *)

(** At most one submission; its URL and its answer are the ones that
    the log reports before it, and its payload is built from the
    request. *)
Definition post_ok (q : QuizRequest) (tr : list event) : Prop :=
  (count is_post tr <= 1)%nat /\
  match first_post tr with
  | None => True
  | Some (u, p) =>
      found_urls (before is_post tr) = [u]
      /\ computed_sums (before is_post tr) = [p_answer p]
      /\ p = payload_of q (p_answer p)
  end.


(** A run that downloads, computes or submits has parsed a page whose
    first anchor has an [href] and whose text has a URL with "submit",
    the first of which is where it submits. *)
Definition provenance (w : World) (tr : list event) : Prop :=
  existsb is_activity tr = true ->
  exists d soup tag link u,
    BeautifulSoup w d = Ok soup
    /\ find_a soup = Some tag
    /\ lookup "href" (attrs tag) = Some link
    /\ first_submit (findall (get_text soup)) = Some u
    /\ (forall u' p, first_post tr = Some (u', p) -> u' = u).

(** A run that parsed a page whose first anchor has no [href] has
    logged the [KeyError]. *)
Definition details_checked (w : World) (tr : list event) : Prop :=
  existsb is_question tr = true ->
  exists d soup,
    BeautifulSoup w d = Ok soup
    /\ forall tag, find_a soup = Some tag -> lookup "href" (attrs tag) = None ->
       existsb is_details_error tr = true.

(** The state after one more event. *)
Definition with_event (s : state) (ev : event) : state :=
  {| browser := browser s;
     background_tasks := background_tasks s;
     trace := trace s ++ [ev] |}.

(** The text that the second piece between backticks of the script
    decodes to, from base64 and then from UTF-8. *)
Definition decoded_segment (script_content : string) : result string :=
  rbind (getitem (split "`" script_content) 1)
        (fun base64_content => rbind (Codec.b64decode base64_content)
                                     Codec.decode_utf8).

(** [sep.join(pieces)] *)
Fixpoint join (sep : ascii) (pieces : list string) : string :=
  match pieces with
  | [] => EmptyString
  | [x] => x
  | x :: rest => (x ++ String sep (join sep rest))%string
  end.

Fixpoint free_of (sep : ascii) (s : string) : bool :=
  match s with
  | EmptyString => true
  | String c t => negb (Ascii.eqb c sep) && free_of sep t
  end.

(** *** Sample worlds *)

Definition sample_request : QuizRequest :=
  {| email := "a@b.c"; secret := "s3"; url := "https://quiz.example.com/q1" |}.

Definition chained_request : QuizRequest :=
  {| email := "a@b.c"; secret := "s3"; url := "https://x/next" |}.

Definition sample_table : table := scenario_header :: scenario_rows.

(** A world in which every call succeeds: the page gives [soup], the
    PDF has the table of the scenario on its second page, and the
    submission is answered with [response]. *)
Definition sample_world (soup : Soup) (response : json) : World :=
  {| playwright_start := Ok tt;
     chromium_launch := Ok tt;
     new_page := Ok tt;
     goto := fun _ => Ok tt;
     evaluate := fun _ => Ok "const d = atob(`aGVsbG8=`);";
     page_content := fun _ => Ok "<html></html>";
     BeautifulSoup := fun _ => Ok soup;
     requests_get := fun _ =>
       Ok {| status_code := 200; content := "%PDF";
             json_body := Raise JSONDecodeError |};
     write_file := fun _ _ => Ok tt;
     pdfplumber_open := fun _ =>
       Ok [ {| extract_table := Ok None |};
            {| extract_table := Ok (Some sample_table) |} ];
     pdfplumber_PDFSyntaxError := true;
     fitz_open := fun _ =>
       Ok [ {| find_tables :=
                 Ok {| finder_truthy := false; finder_tables := [] |} |};
            {| find_tables :=
                 Ok {| finder_truthy := true;
                       finder_tables := [Ok sample_table] |} |} ];
     requests_post := fun _ _ =>
       Ok {| status_code := 200; content := EmptyString;
             json_body := Ok response |} |}.

Definition quiz_text : string :=
  "What is the sum of the “value” column? Post to https://submit.example.com/submit".

Definition quiz_soup : Soup :=
  {| get_text := quiz_text;
     find_a := Some {| attrs := [("href", "https://x/data.pdf")] |} |}.

(** The same page with a first anchor that has no [href]. *)
Definition soup_without_href : Soup :=
  {| get_text := quiz_text;
     find_a := Some {| attrs := [("class", "download")] |} |}.



(** The response [{correct: true, url: "https://x/next"}]. *)
Definition correct_with_url : json :=
  JObj [("correct", JBool true); ("url", JStr "https://x/next")].

(** The response [{correct: true}]. *)
Definition correct_without_url : json := JObj [("correct", JBool true)].

End Props.

(** * Further vocabulary *)

Module MoreProps.
Import PyStr PyFloat Table Codec Re Data Body Stages Props.

(** *** Strings and URLs *)

(** [s[n:]] *)
Fixpoint drop (n : nat) (s : string) : string :=
  match n, s with
  | O, _ => s
  | S _, EmptyString => EmptyString
  | S k, String _ t => drop k t
  end.

(** The text made of the gaps and the URLs in turn: a gap, a URL, a
    gap, ..., a last gap. *)
Fixpoint weave (gaps urls : list string) : string :=
  match gaps with
  | [] => EmptyString
  | g :: gs =>
      match urls with
      | [] => g
      | u :: us => (g ++ u ++ weave gs us)%string
      end
  end.


(** *** Standard base64 *)

(** The character of a six-bit value. *)
Definition b64_char (v : N) : ascii :=
  if (v <? 26)%N then ascii_of_N (v + 65)
  else if (v <? 52)%N then ascii_of_N (v - 26 + 97)
  else if (v <? 62)%N then ascii_of_N (v - 52 + 48)
  else if (v =? 62)%N then "+"%char else "/"%char.

(** The four characters of three bytes. *)
Definition enc1 (a : ascii) : ascii := b64_char (code a / 4).
Definition enc2 (a b : ascii) : ascii :=
  b64_char ((code a mod 4) * 16 + code b / 16).
Definition enc3 (b c : ascii) : ascii :=
  b64_char ((code b mod 16) * 4 + code c / 64).
Definition enc4 (c : ascii) : ascii := b64_char (code c mod 64).

(** The base64 encoding of a byte string, with padding, as a page
    produces it with [btoa] or a server with [base64.b64encode]. *)
Fixpoint b64encode (bytes : string) : string :=
  match bytes with
  | EmptyString => EmptyString
  | String a EmptyString =>
      String (enc1 a) (String (enc2 a zero) "==")
  | String a (String b EmptyString) =>
      String (enc1 a) (String (enc2 a b) (String (enc3 b zero) "="))
  | String a (String b (String c t)) =>
      String (enc1 a) (String (enc2 a b) (String (enc3 b c)
        (String (enc4 c) (b64encode t))))
  end.

(** The numbers below [n]. *)
Definition range (n : nat) : list N := map N.of_nat (seq 0 n).

(** *** Reading a trace, continued *)

Definition is_get (e : event) : bool :=
  match e with HttpGet _ => true | _ => false end.

Definition is_file (e : event) : bool :=
  match e with FileWritten _ => true | _ => false end.

Definition is_start (e : event) : bool :=
  match e with PlaywrightStarted => true | _ => false end.

Definition is_stop (e : event) : bool :=
  match e with PlaywrightStopped => true | _ => false end.

(** The URLs downloaded, the files written, the reasons logged for a
    wrong answer and the failed submissions logged. *)
Definition gets (tr : list event) : list string :=
  flat_map (fun e => match e with HttpGet l => [l] | _ => [] end) tr.

Definition files (tr : list event) : list string :=
  flat_map (fun e => match e with FileWritten n => [n] | _ => [] end) tr.

Definition incorrect_reasons (tr : list event) : list json :=
  flat_map (fun e => match e with
                     | Log WARNING (MIncorrect r) => [r]
                     | _ => []
                     end) tr.

Definition submit_failures (tr : list event) : list (string * exn) :=
  flat_map (fun e => match e with
                     | Log ERROR (MSubmitFailed u x) => [(u, x)]
                     | _ => []
                     end) tr.

(** The local state in which a run ends. *)
Definition final_state (v : Server.variant) (w : World) (q : QuizRequest) : state :=
  snd (Server.solve_quiz v w q init).

(** *** Properties of a run, continued *)

(** Without a download nothing is written, computed or submitted; a
    download is the only one, of the [href] of the first anchor of a
    parsed page whose text has the marker phrase. *)
Definition download_source (w : World) (tr : list event) : Prop :=
  match gets tr with
  | [] => files tr = [] /\ computed_sums tr = [] /\ first_post tr = None
  | link :: more =>
      more = []
      /\ exists d soup tag,
           BeautifulSoup w d = Ok soup
           /\ find_a soup = Some tag
           /\ lookup "href" (attrs tag) = Some link
           /\ (contains marker (get_text soup) && truthy link)%bool = true
  end.

(** Where the sum that [main.py] reports comes from. *)
Definition main_answer_source (w : World) (tr : list event) : Prop :=
  match computed_sums tr with
  | [] => first_post tr = None
  | a :: more =>
      more = []
      /\ (forall u p, first_post tr = Some (u, p) -> p_answer p = a)
      /\ exists link resp pages page t,
           gets tr = [link]
           /\ requests_get w link = Ok resp
           /\ raise_for_status resp = Ok tt
           /\ write_file w "data.pdf" (content resp) = Ok tt
           /\ pdfplumber_open w (content resp) = Ok pages
           /\ (length pages <? 2)%nat = false
           /\ getitem pages 1 = Ok page
           /\ extract_table page = Ok (Some t)
           /\ MainTable.table_answer t = Ok a
  end.

(** Where the sum that [api/index.py] reports comes from. *)
Definition index_answer_source (w : World) (tr : list event) : Prop :=
  match computed_sums tr with
  | [] => first_post tr = None
  | a :: more =>
      more = []
      /\ (forall u p, first_post tr = Some (u, p) -> p_answer p = a)
      /\ exists link resp pages page finder t,
           gets tr = [link]
           /\ requests_get w link = Ok resp
           /\ raise_for_status resp = Ok tt
           /\ fitz_open w (content resp) = Ok pages
           /\ (length pages <? 2)%nat = false
           /\ getitem pages 1 = Ok page
           /\ find_tables page = Ok finder
           /\ finder_truthy finder = true
           /\ getitem (finder_tables finder) 0 = Ok (Ok t)
           /\ IndexTable.table_answer t = IndexTable.Answer a
  end.

(** Where the [BackgroundTasks] object of a run comes from. *)
Definition chain_source (w : World) (q : QuizRequest) (st : state) : Prop :=
  match background_tasks st with
  | None => True
  | Some bt =>
      exists u p resp j c v nq,
        first_post (trace st) = Some (u, p)
        /\ requests_post w u p = Ok resp
        /\ raise_for_status resp = Ok tt
        /\ json_body resp = Ok j
        /\ json_get j "correct" = Ok c
        /\ option_truthy c = true
        /\ json_get j "url" = Ok (Some v)
        /\ json_truthy v = true
        /\ mkQuizRequest (email q) (secret q) v = Ok nq
        /\ tasks bt = [nq]
  end.

(** Where the warning about a wrong answer comes from. *)
Definition incorrect_source (w : World) (st : state) : Prop :=
  match incorrect_reasons (trace st) with
  | [] => True
  | r :: more =>
      more = []
      /\ background_tasks st = None
      /\ count is_post (trace st) = 1%nat
      /\ exists u p resp j c,
           first_post (trace st) = Some (u, p)
           /\ requests_post w u p = Ok resp
           /\ json_body resp = Ok j
           /\ json_get j "correct" = Ok c
           /\ option_truthy c = false
           /\ (json_get j "reason" = Ok (Some r)
               \/ (json_get j "reason" = Ok None
                   /\ r = JStr "No reason provided."))
  end.

(** What a logged failure of the submission tells. *)
Definition submit_failure_source (st : state) : Prop :=
  match submit_failures (trace st) with
  | [] => True
  | (u, e) :: more =>
      more = []
      /\ isinstance e RequestException = true
      /\ background_tasks st = None
      /\ count is_post (trace st) = 1%nat
      /\ exists p, first_post (trace st) = Some (u, p)
  end.

(** Where the file that [main.py] writes comes from. *)
Definition main_file_source (w : World) (tr : list event) : Prop :=
  match files tr with
  | [] => True
  | n :: more =>
      n = "data.pdf" /\ more = []
      /\ exists link resp,
           gets tr = [link]
           /\ requests_get w link = Ok resp
           /\ raise_for_status resp = Ok tt
           /\ write_file w "data.pdf" (content resp) = Ok tt
  end.

(** *** More sample worlds *)

Definition with_goto (w : World) (g : string -> result unit) : World :=
  {| playwright_start := playwright_start w;
     chromium_launch := chromium_launch w;
     new_page := new_page w;
     goto := g;
     evaluate := evaluate w;
     page_content := page_content w;
     BeautifulSoup := BeautifulSoup w;
     requests_get := requests_get w;
     write_file := write_file w;
     pdfplumber_open := pdfplumber_open w;
     pdfplumber_PDFSyntaxError := pdfplumber_PDFSyntaxError w;
     fitz_open := fitz_open w;
     requests_post := requests_post w |}.

Definition with_requests_get (w : World) (g : string -> result Response) : World :=
  {| playwright_start := playwright_start w;
     chromium_launch := chromium_launch w;
     new_page := new_page w;
     goto := goto w;
     evaluate := evaluate w;
     page_content := page_content w;
     BeautifulSoup := BeautifulSoup w;
     requests_get := g;
     write_file := write_file w;
     pdfplumber_open := pdfplumber_open w;
     pdfplumber_PDFSyntaxError := pdfplumber_PDFSyntaxError w;
     fitz_open := fitz_open w;
     requests_post := requests_post w |}.

Definition with_pdf (w : World)
    (plumber : string -> result (list PlumberPage))
    (fitz : string -> result (list FitzPage)) : World :=
  {| playwright_start := playwright_start w;
     chromium_launch := chromium_launch w;
     new_page := new_page w;
     goto := goto w;
     evaluate := evaluate w;
     page_content := page_content w;
     BeautifulSoup := BeautifulSoup w;
     requests_get := requests_get w;
     write_file := write_file w;
     pdfplumber_open := plumber;
     pdfplumber_PDFSyntaxError := pdfplumber_PDFSyntaxError w;
     fitz_open := fitz;
     requests_post := requests_post w |}.

Definition with_requests_post (w : World)
    (p : string -> Payload -> result Response) : World :=
  {| playwright_start := playwright_start w;
     chromium_launch := chromium_launch w;
     new_page := new_page w;
     goto := goto w;
     evaluate := evaluate w;
     page_content := page_content w;
     BeautifulSoup := BeautifulSoup w;
     requests_get := requests_get w;
     write_file := write_file w;
     pdfplumber_open := pdfplumber_open w;
     pdfplumber_PDFSyntaxError := pdfplumber_PDFSyntaxError w;
     fitz_open := fitz_open w;
     requests_post := p |}.

(** The world in which everything succeeds and the answer is accepted
    with a next URL. *)
Definition good_world : World := sample_world quiz_soup correct_with_url.

(** The page cannot be reached. *)
Definition unreachable_world : World :=
  with_goto good_world (fun _ => Raise PlaywrightError).

(** The download is answered with status 404. *)
Definition not_found_world : World :=
  with_requests_get good_world
    (fun _ => Ok {| status_code := 404; content := EmptyString;
                    json_body := Raise JSONDecodeError |}).

(** The PDF has one page. *)
Definition one_page_world : World :=
  with_pdf good_world
    (fun _ => Ok [ {| extract_table := Ok (Some sample_table) |} ])
    (fun _ => Ok [ {| find_tables :=
                       Ok {| finder_truthy := true;
                             finder_tables := [Ok sample_table] |} |} ]).

(** The second page of the PDF has no table. *)
Definition no_table_world : World :=
  with_pdf good_world
    (fun _ => Ok [ {| extract_table := Ok (Some sample_table) |};
                   {| extract_table := Ok None |} ])
    (fun _ => Ok [ {| find_tables :=
                       Ok {| finder_truthy := true;
                             finder_tables := [Ok sample_table] |} |};
                   {| find_tables :=
                       Ok {| finder_truthy := false; finder_tables := [] |} |} ]).

(** The submission cannot be sent. *)
Definition post_down_world : World :=
  with_requests_post good_world (fun _ _ => Raise RequestException).

(** The response [{correct: false, reason: "wrong"}]. *)
Definition incorrect_with_reason : json :=
  JObj [("correct", JBool false); ("reason", JStr "wrong")].

(** A page that asks something else. *)
Definition soup_without_marker : Soup :=
  {| get_text := "Add the numbers. Post to https://submit.example.com";
     find_a := Some {| attrs := [("href", "https://x/data.pdf")] |} |}.

End MoreProps.

(** * Properties *)

(** ** The library functions on small inputs *)

Module Examples.
Import PyStr PyFloat Table Codec Re Stages Props.

Example float_plain : float_of_str " 5.5 " = Some (S754_finite false 6192449487634432 (-50)).
Proof. vm_compute. reflexivity. Qed.

Example float_underscore : float_of_str "1_000" = Some (of_int 1000).
Proof. vm_compute. reflexivity. Qed.

Example float_word : float_of_str "abc" = None.
Proof. reflexivity. Qed.

Example float_empty : float_of_str "" = None.
Proof. reflexivity. Qed.

Example float_nan : float_of_str "nan" = Some nan.
Proof. reflexivity. Qed.

Example pandas_plain : Pandas.floatify " 5.5 " = float_of_str "5.5".
Proof. vm_compute. reflexivity. Qed.

Example pandas_underscore : Pandas.floatify "1_000" = None.
Proof. reflexivity. Qed.

Example pandas_nan : Pandas.coerce (Some "nan") = nan.
Proof. reflexivity. Qed.

Example split_backticks : split "`" "a`b`c" = ["a"; "b"; "c"].
Proof. reflexivity. Qed.

Example decode_hello : decoded_segment "const code = `aGVsbG8=`; run(code)" = Ok "hello".
Proof. reflexivity. Qed.

Example decode_no_backtick : decoded_segment "no backtick here" = Raise IndexError.
Proof. reflexivity. Qed.

Example decode_bad_base64 : decoded_segment "bad `a` payload" = Raise BinasciiError.
Proof. reflexivity. Qed.

Example decode_bad_utf8 : rbind (b64decode "/w==") decode_utf8 = Raise UnicodeDecodeError.
Proof. reflexivity. Qed.

(** The pattern has no slash in its character class: a match ends
    where the path of a URL begins. *)
Example findall_stops_at_path :
  findall "Post your answer to https://example.com/submit" = ["https://example.com"].
Proof. reflexivity. Qed.

Example findall_two :
  findall "see http://a.b-c.org%2Fx, then https://submit.example.com/answer"
  = ["http://a.b-c.org%2Fx"; "https://submit.example.com"].
Proof. reflexivity. Qed.

Example first_submit_host :
  first_submit (findall "Post your answer to https://submit.example.com/answer")
  = Some "https://submit.example.com".
Proof. reflexivity. Qed.

Example first_submit_path :
  first_submit (findall "Post your answer to https://example.com/submit") = None.
Proof. reflexivity. Qed.

End Examples.

(** ** The sum of the column named "value" *)

Module TableFacts.
Import PyStr PyFloat Table Props.

Lemma float_raises : forall c e,
  float_ c = Raise e -> isinstance e ValueError || isinstance e TypeError = true.
Proof.
  intros [s|] e; simpl.
  - destruct (float_of_str s); intros H; inversion H; reflexivity.
  - intros H; inversion H; reflexivity.
Qed.

Lemma getitem_nth : forall (r : row) i,
  (i < length r)%nat -> getitem r i = Ok (nth i r None).
Proof.
  intros r i Hi. unfold getitem.
  destruct (nth_error r i) as [c|] eqn:E.
  - f_equal. symmetry. now apply nth_error_nth.
  - apply nth_error_None in E. lia.
Qed.

Lemma sum_rows_fold : forall i rows total,
  Forall (fun r => (i < length r)%nat) rows ->
  IndexTable.sum_rows i total rows
  = Ok (fold_left iadd (coerced (map (fun r => nth i r None) rows)) total).
Proof.
  intros i rows. induction rows as [|r rows IH]; intros total Hlen.
  - reflexivity.
  - inversion Hlen as [|? ? Hr Hrest]; subst.
    cbn [IndexTable.sum_rows map coerced flat_map].
    rewrite (getitem_nth _ _ Hr). cbn [rbind].
    destruct (float_ (nth i r None)) as [f|e] eqn:E.
    + rewrite IH by assumption. reflexivity.
    + rewrite (float_raises _ _ E). rewrite IH by assumption. reflexivity.
Qed.

Lemma index_value_bound : forall header i,
  IndexTable.index_value header = Some i -> (i < length header)%nat.
Proof.
  induction header as [|c rest IH]; intros i; simpl.
  - discriminate.
  - destruct (is_value c).
    + intros H; inversion H; lia.
    + destruct (IndexTable.index_value rest) as [j|]; simpl; intros H;
        inversion H; subst. specialize (IH j eq_refl). lia.
Qed.

Lemma index_value_some : forall header,
  existsb is_value header = true ->
  exists i, IndexTable.index_value header = Some i.
Proof.
  induction header as [|c rest IH]; simpl; intros H.
  - discriminate.
  - destruct (is_value c); [eauto|].
    destruct (IH H) as [i Hi]. rewrite Hi. simpl. eauto.
Qed.

(** [api/index.py] on a table with a column named "value" whose rows
    are as long as the header. *)
Lemma index_table_answer : forall header rows,
  existsb is_value header = true ->
  Forall (fun r => length r = length header) rows ->
  IndexTable.table_answer (header :: rows)
  = IndexTable.Answer (sum_of (coerced (value_cells header rows))).
Proof.
  intros header rows Hv Hrect.
  destruct (index_value_some _ Hv) as [i Hi].
  unfold IndexTable.table_answer, value_cells, sum_of. simpl. rewrite Hi.
  rewrite sum_rows_fold; [reflexivity|].
  apply index_value_bound in Hi.
  eapply Forall_impl; [|exact Hrect]. simpl. intros r Hr. lia.
Qed.












End TableFacts.

(** ** The two variants on one table *)

Module Agreement.
Import PyStr PyFloat Table Props TableFacts.

Lemma same_number_refl : forall x, same_number x x.
Proof. intros x. now left. Qed.





End Agreement.

Module TableClaims.
Import PyStr PyFloat Table Props TableFacts Agreement.

Example scenario_number : float_of_str "15.5" = Some f15_5.
Proof. vm_compute. reflexivity. Qed.








End TableClaims.

(** ** The URLs found in the question text *)

Module ReFacts.
Import PyStr Re Props Stages.


Lemma percent_not_url_char : forall c,
  Ascii.eqb c "%" = true -> is_url_char c = false.
Proof. intros c H. apply Ascii.eqb_eq in H. subst. reflexivity. Qed.

(** The matched part consists of items, and the input is the matched
    part followed by the rest. *)
Lemma url_tail_spec : forall n s, (String.length s <= n)%nat ->
  items is_url_char (fst (url_tail s)) = true
  /\ s = (fst (url_tail s) ++ snd (url_tail s))%string.
Proof.
  induction n as [|n IH]; intros s Hn.
  - destruct s; [split; reflexivity|simpl in Hn; lia].
  - destruct s as [|c t]; [split; reflexivity|].
    simpl in Hn. cbn [url_tail].
    destruct (is_url_char c) eqn:Ec.
    + destruct (IH t ltac:(lia)) as [Hi Hs].
      destruct (url_tail t) as [m r]. simpl in *.
      rewrite Ec. split; [assumption|congruence].
    + destruct (Ascii.eqb c "%") eqn:Ep; [|split; reflexivity].
      destruct t as [|h1 [|h2 t']]; try (split; reflexivity).
      destruct (is_hex h1 && is_hex h2) eqn:Eh; [|split; reflexivity].
      simpl in Hn.
      destruct (IH t' ltac:(lia)) as [Hi Hs].
      destruct (url_tail t') as [m r]. simpl in *.
      rewrite Ec, Ep, Eh. split; [assumption|congruence].
Qed.

Lemma strip_prefix_app : forall p s r,
  strip_prefix p s = Some r -> s = (p ++ r)%string.
Proof.
  induction p as [|a p IH]; intros s r; simpl.
  - intros H; now inversion H.
  - destruct s as [|b s]; [discriminate|].
    destruct (Ascii.eqb a b) eqn:E; [|discriminate].
    apply Ascii.eqb_eq in E. subst. intros H. now rewrite (IH _ _ H).
Qed.

Lemma app_assoc_str : forall a b c : string,
  ((a ++ b) ++ c = a ++ (b ++ c))%string.
Proof. induction a; intros; simpl; [reflexivity|now rewrite IHa]. Qed.

Lemma tail_after_spec : forall scheme rest u,
  tail_after scheme rest = Some u ->
  exists m r, u = (scheme ++ "://" ++ m)%string
              /\ rest = ("://" ++ m ++ r)%string
              /\ m <> EmptyString
              /\ items is_url_char m = true.
Proof.
  intros scheme rest u. unfold tail_after.
  destruct (strip_prefix "://" rest) as [r0|] eqn:Es; [|discriminate].
  apply strip_prefix_app in Es.
  destruct (url_tail_spec (String.length r0) r0 (le_n _)) as [Hi Hs].
  destruct (url_tail r0) as [m r]. simpl in Hi, Hs.
  destruct m as [|c m]; [discriminate|].
  intros H; inversion H; subst u.
  exists (String c m), r. repeat split; try assumption.
  - rewrite Es. f_equal. f_equal. f_equal. exact Hs.
  - discriminate.
Qed.

(** A match has the shape of the pattern and starts the input. *)
Lemma match_here_spec : forall s u,
  match_here s = Some u ->
  url_shape is_url_char u /\ exists r, s = (u ++ r)%string.
Proof.
  intros s u. unfold match_here.
  destruct (strip_prefix "http" s) as [r|] eqn:Es; [|discriminate].
  apply strip_prefix_app in Es.
  assert (Hhttp : tail_after "http" r = Some u ->
                  url_shape is_url_char u /\ exists r', s = (u ++ r')%string).
  { intros H. apply tail_after_spec in H.
    destruct H as (m & r' & -> & -> & Hne & Hi). split.
    - exists "http", m. auto.
    - exists r'. rewrite Es. reflexivity. }
  destruct r as [|c r']; [exact Hhttp|].
  destruct (Ascii.eqb c "s") eqn:Ec; [|exact Hhttp].
  apply Ascii.eqb_eq in Ec. subst c.
  destruct (tail_after "https" r') as [u'|] eqn:Et; [|exact Hhttp].
  intros H; inversion H; subst u'.
  apply tail_after_spec in Et.
  destruct Et as (m & r'' & -> & -> & Hne & Hi). split.
  - exists "https", m. auto.
  - exists r''. rewrite Es. reflexivity.
Qed.

(** Every element of [findall] is a match at some position of the
    text. *)
Lemma findall_from_match : forall s skip u,
  In u (findall_from skip s) ->
  exists before s', s = (before ++ s')%string /\ match_here s' = Some u.
Proof.
  induction s as [|c t IH]; intros skip u Hin; [contradiction|].
  assert (Hrest : forall k, In u (findall_from k t) ->
            exists before s', String c t = (before ++ s')%string
                              /\ match_here s' = Some u).
  { intros k Hk. destruct (IH k u Hk) as (b & s' & -> & Hm).
    exists (String c b), s'. split; [reflexivity|assumption]. }
  cbn [findall_from] in Hin. destruct skip as [|k]; [|eauto].
  destruct (match_here (String c t)) as [u0|] eqn:Em; [|eauto].
  destruct Hin as [<- | Hin]; [|eauto].
  exists EmptyString, (String c t). split; [reflexivity|assumption].
Qed.

Lemma prefix_app : forall p s,
  prefix p s = true <-> exists r, s = (p ++ r)%string.
Proof.
  induction p as [|a p IH]; intros s; simpl.
  - destruct s; split; eauto.
  - destruct s as [|b s]; [split; [discriminate|intros [r H]; discriminate]|].
    cbn. destruct (ascii_dec a b) as [->|Hab].
    + rewrite IH. split; intros [r H]; exists r; [now rewrite H|now inversion H].
    + split; [discriminate|]. intros [r H]. inversion H. congruence.
Qed.

(** [contains] decides whether the needle occurs in the text. *)
Lemma contains_occurs : forall needle hay,
  contains needle hay = true <-> occurs_in needle hay.
Proof.
  intros needle hay. unfold occurs_in.
  induction hay as [|c t IH]; cbn [contains].
  - destruct (prefix needle "") eqn:E.
    + split; [intros _|reflexivity].
      apply prefix_app in E. destruct E as [r E]. now exists EmptyString, r.
    + split; [discriminate|]. intros (bef & aft & H).
      destruct bef; [|discriminate].
      assert (prefix needle "" = true) by (apply prefix_app; eauto).
      congruence.
  - destruct (prefix needle (String c t)) eqn:E.
    + split; [intros _|reflexivity].
      apply prefix_app in E. destruct E as [r E]. now exists EmptyString, r.
    + rewrite IH. split.
      * intros (bef & aft & ->). now exists (String c bef), aft.
      * intros (bef & aft & H). destruct bef as [|c' bef].
        -- assert (prefix needle (String c t) = true)
             by (apply prefix_app; eauto). congruence.
        -- inversion H. eauto.
Qed.







End ReFacts.

(** ** Runs of [solve_quiz] *)

Module RunFacts.
Import PyStr Table Re Data Body Stages Props.

(** Symbolic execution of a run: the monad is unfolded, and every call
    into the world or into a library is split into its outcomes. *)
Ltac run_red :=
  cbv beta iota zeta delta
    [bind ret lift emit log return_ raise try_except try_finally call
     set_browser get_browser set_background_tasks fst snd tag_getitem
     trace browser background_tasks init app rbind].

(** The same for a single stage, the trace left as a list expression. *)
Ltac stage_red :=
  cbv beta iota zeta delta
    [bind ret lift emit log return_ raise try_except try_finally
     set_browser get_browser set_background_tasks add_task tasks
     trace browser background_tasks mkQuizRequest].

Ltac run_step :=
  match goal with
  | |- context [match ?x with _ => _ end] =>
      lazymatch x with
      | context [match _ with _ => _ end] => fail
      | _ => destruct x eqn:?
      end
  end; run_red.

Ltac run_exec :=
  unfold run_trace, Server.solve_quiz, Main.solve_quiz, Index.solve_quiz,
    solve_quiz_body, pipeline, async_with_playwright, navigate,
    extract_payload, quiz_details, Main.quiz_solving, Index.quiz_solving,
    submit_answer, interpret, close_browser, not_recognized;
  run_red; repeat run_step.

(** A call of [solve_quiz] returns; it never raises. *)
Lemma returns : forall v w q, fst (Server.solve_quiz v w q init) = Ok tt.
Proof. intros [] w q; run_exec; reflexivity. Qed.

Lemma post_ok_run : forall v w q, post_ok q (run_trace v w q).
Proof.
  intros [] w q; run_exec; unfold post_ok; cbn; repeat split; auto.
Qed.


Lemma provenance_run : forall v w q, provenance w (run_trace v w q).
Proof.
  intros [] w q; run_exec; unfold provenance; cbn; intros Hact;
    try discriminate;
    do 5 eexists; (split; [eassumption|]); (split; [eassumption|]);
    (split; [eassumption|]); (split; [eassumption|]);
    intros u' p' Hp; inversion Hp; reflexivity.
Qed.

Lemma details_run : forall v w q, details_checked w (run_trace v w q).
Proof.
  intros [] w q; run_exec; unfold details_checked; cbn; intros Hq;
    try discriminate;
    do 2 eexists; (split; [eassumption|]);
    intros tag Hf Hl; try reflexivity; congruence.
Qed.

(** *** Lists of events *)

Lemma first_post_split : forall tr u p,
  first_post tr = Some (u, p) ->
  tr = before is_post tr ++ HttpPost u p :: after is_post tr.
Proof.
  induction tr as [|e tr IH]; intros u p H; [discriminate|].
  destruct e; simpl in *; try (f_equal; now apply IH).
  inversion H; reflexivity.
Qed.

Lemma count_cons : forall kind e tr,
  count kind (e :: tr) = ((if kind e then 1 else 0) + count kind tr)%nat.
Proof. intros kind e tr. unfold count. simpl. now destruct (kind e). Qed.

Lemma count_app : forall kind l1 l2,
  count kind (l1 ++ l2) = (count kind l1 + count kind l2)%nat.
Proof.
  intros kind l1 l2. unfold count. now rewrite filter_app, length_app.
Qed.

Lemma count_in : forall kind e tr,
  In e tr -> kind e = true -> (1 <= count kind tr)%nat.
Proof.
  induction tr as [|x tr IH]; intros Hin Hk; [contradiction|].
  rewrite count_cons. destruct Hin as [-> | Hin].
  - rewrite Hk. lia.
  - specialize (IH Hin Hk). lia.
Qed.


(** With one submission at most, a submission that occurs is the
    first. *)
Lemma in_post_first : forall tr u p,
  (count is_post tr <= 1)%nat ->
  In (HttpPost u p) tr -> first_post tr = Some (u, p).
Proof.
  induction tr as [|e tr IH]; intros u p Hc Hin; [contradiction|].
  rewrite count_cons in Hc.
  destruct Hin as [-> | Hin]; [reflexivity|].
  pose proof (count_in is_post _ _ Hin eq_refl) as H1.
  destruct e; simpl in *; try (apply IH; [lia|assumption]).
  lia.
Qed.

Lemma found_urls_in : forall tr u,
  In u (found_urls tr) -> In (Log INFO (MSubmissionUrl u)) tr.
Proof.
  intros tr u H. unfold found_urls in H. apply in_flat_map in H.
  destruct H as (e & He & Hu).
  destruct e as [[] [] | | | | | | | ]; simpl in Hu; try contradiction.
  destruct Hu as [-> | []]. exact He.
Qed.

Lemma computed_sums_in : forall tr a,
  In a (computed_sums tr) -> In (Log INFO (MCalculatedSum a)) tr.
Proof.
  intros tr a H. unfold computed_sums in H. apply in_flat_map in H.
  destruct H as (e & He & Ha).
  destruct e as [[] [] | | | | | | | ]; simpl in Ha; try contradiction.
  destruct Ha as [-> | []]. exact He.
Qed.


End RunFacts.

(** ** Claims about a run *)

Module RunClaims.
Import PyStr Table Codec Re Data Body Stages Props RunFacts.

(** [split] cuts the text at every separator and nowhere else. *)
Lemma split_join : forall sep s,
  join sep (split sep s) = s
  /\ Forall (fun piece => free_of sep piece = true) (split sep s)
  /\ split sep s <> [].
Proof.
  intros sep s. induction s as [|c t (Hj & Hf & Hne)]; simpl.
  - repeat split; [repeat constructor|discriminate].
  - destruct (Ascii.eqb c sep) eqn:E.
    + apply Ascii.eqb_eq in E. subst c. repeat split.
      * destruct (split sep t) as [|x l]; [contradiction|].
        simpl in *. now rewrite Hj.
      * constructor; [reflexivity|assumption].
      * discriminate.
    + destruct (split sep t) as [|x l]; [contradiction|].
      repeat split.
      * destruct l; simpl in *; now rewrite Hj.
      * inversion Hf; subst. constructor; [|assumption].
        simpl. now rewrite E.
      * discriminate.
Qed.



(** C7.  In every run at most one submission is posted; a submission
    that is posted comes after the log lines that report the
    submission URL found and the sum calculated in the same run, goes
    to that URL and carries that sum as the answer. *)
Theorem one_submission_after_answer_and_url : forall v w q,
  let tr := run_trace v w q in
  (count is_post tr <= 1)%nat
  /\ forall u p, In (HttpPost u p) tr ->
       exists pre post, tr = pre ++ HttpPost u p :: post
         /\ In (Log INFO (MSubmissionUrl u)) pre
         /\ In (Log INFO (MCalculatedSum (p_answer p))) pre
         /\ p = payload_of q (p_answer p).
Proof.
  intros v w q tr. destruct (post_ok_run v w q) as [Hc Hm]. fold tr in Hc, Hm.
  split; [exact Hc|]. intros u p Hin.
  pose proof (in_post_first _ _ _ Hc Hin) as Hf. rewrite Hf in Hm.
  destruct Hm as (Hu & Ha & Hp).
  exists (before is_post tr), (after is_post tr). repeat split.
  - now apply first_post_split.
  - apply found_urls_in. rewrite Hu. now left.
  - apply computed_sums_in. rewrite Ha. now left.
  - exact Hp.
Qed.

Lemma one_submission_witness :
  let tr := run_trace Server.main_py (sample_world quiz_soup correct_with_url)
                      sample_request in
  let p := payload_of sample_request (PyFloat f15_5) in
  exists pre post,
    tr = pre ++ HttpPost "https://submit.example.com" p :: post
    /\ In (Log INFO (MSubmissionUrl "https://submit.example.com")) pre
    /\ In (Log INFO (MCalculatedSum (PyFloat f15_5))) pre.
Proof.
  destruct (one_submission_after_answer_and_url Server.main_py
              (sample_world quiz_soup correct_with_url) sample_request)
    as [_ H].
  destruct (H "https://submit.example.com"
              (payload_of sample_request (PyFloat f15_5)))
    as (pre & post & H1 & H2 & H3 & _).
  - vm_compute. repeat (first [left; reflexivity | right]).
  - exists pre, post. auto.
Defined.





(** C10.  When the first anchor of the parsed page has no [href], the
    subscript raises a [KeyError] that the handler of the detail
    extraction catches and logs, and the run ends there: nothing is
    downloaded, no answer is computed and nothing is submitted. *)
Theorem anchor_without_href_aborts :
  (forall soup text s tag,
     find_a soup = Some tag -> lookup "href" (attrs tag) = None ->
     quiz_details soup text s
     = (Return_, with_event s (Log ERROR (MDetailsError KeyError))))
  /\ (forall v w q,
        (forall d soup, BeautifulSoup w d = Ok soup ->
           exists tag, find_a soup = Some tag
                       /\ lookup "href" (attrs tag) = None) ->
        fst (Server.solve_quiz v w q init) = Ok tt
        /\ existsb is_activity (run_trace v w q) = false
        /\ (existsb is_question (run_trace v w q) = true ->
            existsb is_details_error (run_trace v w q) = true)).
Proof.
  split.
  - intros soup text s tag Hf Hl. unfold quiz_details, with_event. run_red.
    rewrite Hf. run_red. rewrite Hl. reflexivity.
  - intros v w q Hw. repeat split.
    + apply returns.
    + destruct (existsb is_activity (run_trace v w q)) eqn:E; [|reflexivity].
      destruct (provenance_run v w q E)
        as (d & soup & tag & link & u & H1 & H2 & H3 & _).
      destruct (Hw _ _ H1) as (tag' & H2' & H3'). congruence.
    + intros Hq. destruct (details_run v w q Hq) as (d & soup & H1 & H2).
      destruct (Hw _ _ H1) as (tag & Hf & Hl). eauto.
Qed.

Lemma anchor_without_href_witness :
  let tr := run_trace Server.main_py
              (sample_world soup_without_href correct_with_url)
              sample_request in
  existsb is_activity tr = false
  /\ existsb is_question tr = true
  /\ existsb is_details_error tr = true.
Proof.
  destruct anchor_without_href_aborts as [_ H].
  destruct (H Server.main_py (sample_world soup_without_href correct_with_url)
              sample_request) as (_ & Ha & Hd).
  - intros d soup Hs. inversion Hs. eexists. split; reflexivity.
  - split; [exact Ha|]. split; [reflexivity|]. apply Hd. reflexivity.
Defined.

(** A string never equals [None]. *)
Lemma secret_never_none : forall s, secret_matches s None = false.
Proof. reflexivity. Qed.

(** C9.  When the environment has no variable [SECRET], the endpoint
    answers every request with [HTTPException(403)], adds no task, and
    no run is started. *)
Theorem unset_secret_rejects_every_request : forall v w environ q bt,
  getenv environ "SECRET" = None ->
  Main.receive_quiz (Main.SECRET environ) q bt
    = (HTTPException 403 "Invalid secret", bt)
  /\ Index.receive_quiz (Index.SECRET environ) q bt
    = (HTTPException 403 "Invalid secret", bt)
  /\ Server.handle v w (Main.SECRET environ) q
    = (HTTPException 403 "Invalid secret", []).
Proof.
  intros v w environ q bt H.
  unfold Main.receive_quiz, Index.receive_quiz, Server.handle, receive_quiz,
    Main.SECRET, Index.SECRET.
  rewrite H. repeat split.
Qed.

Lemma unset_secret_witness :
  Server.handle Server.main_py (sample_world quiz_soup correct_with_url)
    (Main.SECRET [("PATH", "/usr/bin")]) sample_request
  = (HTTPException 403 "Invalid secret", []).
Proof.
  apply (unset_secret_rejects_every_request Server.main_py
           (sample_world quiz_soup correct_with_url)
           [("PATH", "/usr/bin")] sample_request {| tasks := [] |}).
  reflexivity.
Defined.

(** *** Chaining *)

(** The server runs the task of the request and nothing else. *)
Lemma handle_runs_only_request : forall v w SECRET q r,
  In r (snd (Server.handle v w SECRET q)) -> fst r = q.
Proof.
  intros v w SECRET q r. unfold Server.handle, receive_quiz.
  destruct (negb (secret_matches (secret q) SECRET)); simpl; [contradiction|].
  intros [<- | []]. reflexivity.
Qed.

(** A correct answer with a non-empty [url]: the new request has the
    e-mail and the secret of the current one and the new URL, and is
    added to the [BackgroundTasks] object that the run has just
    created. *)
Lemma interpret_chains : forall q members u s,
  option_truthy (lookup "correct" members) = true ->
  lookup "url" members = Some (JStr u) ->
  truthy u = true ->
  interpret q (JObj members) s
  = (Next tt,
     {| browser := browser s;
        background_tasks :=
          Some {| tasks := [{| email := email q; secret := secret q; url := u |}] |};
        trace := trace s ++ [Log INFO MCorrect; Log INFO (MNewQuizUrl (JStr u))] |}).
Proof.
  intros q members u [b bt tr] Hc Hu Ht. unfold interpret, json_get. stage_red.
  rewrite Hc. stage_red. rewrite Hu.
  change (json_truthy (JStr u)) with (truthy u). rewrite Ht. stage_red.
  simpl. rewrite <- app_assoc. reflexivity.
Qed.

(** A correct answer without [url], or with an empty one: the series is
    finished and no task is added to anything. *)
Lemma interpret_finishes : forall q members s,
  option_truthy (lookup "correct" members) = true ->
  option_truthy (lookup "url" members) = false ->
  interpret q (JObj members) s
  = (Next tt,
     {| browser := browser s;
        background_tasks := background_tasks s;
        trace := trace s ++ [Log INFO MCorrect; Log INFO MSeriesFinished] |}).
Proof.
  intros q members [b bt tr] Hc Hu. unfold interpret, json_get. stage_red.
  rewrite Hc. stage_red.
  destruct (lookup "url" members) as [j|]; simpl in Hu.
  - rewrite Hu. stage_red. simpl. rewrite <- app_assoc. reflexivity.
  - stage_red. simpl. rewrite <- app_assoc. reflexivity.
Qed.

(** C1 (the code at the failing input).  The submission is answered
    with [{correct: true, url: "https://x/next"}]: the server runs the
    task of the request it received and no other; the request for
    ["https://x/next"] sits in the [BackgroundTasks] object local to
    that run, which nothing executes. *)
Theorem chained_request_is_never_run : forall v,
  let w := sample_world quiz_soup correct_with_url in
  let out := Server.handle v w (Some "s3") sample_request in
  map fst (snd out) = [sample_request]
  /\ Forall (fun r => fst (snd r) = Ok tt
                      /\ background_tasks (snd (snd r))
                         = Some {| tasks := [chained_request] |})
            (snd out)
  /\ ~ In chained_request (map fst (snd out)).
Proof.
  intros []; vm_compute; (split; [reflexivity|]);
    (split; [repeat constructor|]); intros [H | []]; discriminate.
Qed.

End RunClaims.



(** * Further properties *)

(** ** Tables without a usable "value" column *)

Module MoreTableFacts.
Import PyStr PyFloat Table Props TableFacts.




Lemma sum_rows_app : forall i rows1 rows2 total,
  IndexTable.sum_rows i total (rows1 ++ rows2)
  = match IndexTable.sum_rows i total rows1 with
    | Ok t => IndexTable.sum_rows i t rows2
    | Raise e => Raise e
    end.
Proof.
  intros i rows1 rows2. induction rows1 as [|r rows1 IH]; intros total.
  - reflexivity.
  - cbn [IndexTable.sum_rows app].
    destruct (rbind (getitem r i) float_) as [f|e].
    + apply IH.
    + destruct (isinstance e ValueError || isinstance e TypeError);
        [apply IH|reflexivity].
Qed.

(** X2.  In [api/index.py] a data row too short to have a cell in the
    "value" column ends the computation with an [IndexError], whatever
    the rows before it summed to and whatever follows: the handler of
    the loop catches [ValueError] and [TypeError] only. *)
Theorem short_row_aborts_index : forall header i rows r rest,
  IndexTable.index_value header = Some i ->
  Forall (fun r => (i < length r)%nat) rows ->
  (length r <= i)%nat ->
  IndexTable.table_answer (header :: rows ++ r :: rest)
  = IndexTable.Raises IndexError.
Proof.
  intros header i rows r rest Hi Hrows Hr.
  unfold IndexTable.table_answer. simpl. rewrite Hi.
  rewrite sum_rows_app, (sum_rows_fold _ _ _ Hrows). simpl.
  unfold getitem. apply nth_error_None in Hr. rewrite Hr. reflexivity.
Qed.

Lemma short_row_example :
  IndexTable.table_answer
    [[Some "id"; Some "value"]; [Some "1"; Some "10"]; [Some "2"];
     [Some "3"; Some "5"]]
  = IndexTable.Raises IndexError.
Proof.
  apply (short_row_aborts_index [Some "id"; Some "value"] 1
           [[Some "1"; Some "10"]] [Some "2"] [[Some "3"; Some "5"]]).
  - reflexivity.
  - repeat constructor.
  - simpl. lia.
Defined.

Lemma index_value_first : forall header i,
  IndexTable.index_value header = Some i ->
  (exists c, nth_error header i = Some c /\ is_value c = true)
  /\ forall j c, (j < i)%nat -> nth_error header j = Some c -> is_value c = false.
Proof.
  induction header as [|c rest IH]; intros i; simpl; [discriminate|].
  destruct (is_value c) eqn:E.
  - intros H; inversion H; subst.
    split; [exists c; split; [reflexivity|exact E]|]. intros j c' Hj. lia.
  - destruct (IndexTable.index_value rest) as [k|]; simpl; [|discriminate].
    intros H; inversion H; subst. destruct (IH k eq_refl) as [He Hb]. split.
    + exact He.
    + intros [|j] c' Hj Hn; simpl in Hn.
      * inversion Hn; subst. exact E.
      * apply (Hb j); [lia|assumption].
Qed.

(** X3.  When the header names "value" more than once, [api/index.py]
    sums the first of these columns: the answer is the sum over the
    cells at the least index whose header cell is "value". *)
Theorem index_sums_first_value_column : forall header rows,
  existsb is_value header = true ->
  Forall (fun r => length r = length header) rows ->
  exists i,
    nth_error header i = Some (Some "value")
    /\ (forall j, (j < i)%nat -> nth_error header j <> Some (Some "value"))
    /\ IndexTable.table_answer (header :: rows)
       = IndexTable.Answer
           (fold_left iadd (coerced (map (fun r => nth i r None) rows)) (PyInt 0)).
Proof.
  intros header rows Hv Hrect.
  destruct (index_value_some _ Hv) as [i Hi].
  destruct (index_value_first _ _ Hi) as [(c & Hc & Hvc) Hb].
  exists i. repeat split.
  - rewrite Hc. destruct c as [s|]; [|discriminate]. simpl in Hvc.
    apply String.eqb_eq in Hvc. now subst.
  - intros j Hj Hn. specialize (Hb j _ Hj Hn). discriminate.
  - rewrite (index_table_answer _ _ Hv Hrect). unfold value_cells. now rewrite Hi.
Qed.

Lemma index_first_value_example :
  IndexTable.table_answer
    [[Some "value"; Some "id"; Some "value"]; [Some "1"; Some "a"; Some "100"];
     [Some "2"; Some "b"; Some "200"]]
  = IndexTable.Answer (PyFloat (of_int 3)).
Proof.
  destruct (index_sums_first_value_column
              [Some "value"; Some "id"; Some "value"]
              [[Some "1"; Some "a"; Some "100"]; [Some "2"; Some "b"; Some "200"]])
    as (i & H1 & H2 & H3).
  - reflexivity.
  - repeat constructor.
  - rewrite H3. destruct i as [|[|[|i]]]; try discriminate.
    + vm_compute. reflexivity.
    + exfalso. apply (H2 O); [lia|reflexivity].
Defined.

End MoreTableFacts.

(** ** How [re.findall] walks through the text *)

Module MoreReFacts.
Import PyStr Re Props MoreProps Stages ReFacts.

Lemma findall_from_drop : forall s n,
  findall_from n s = findall_from O (drop n s).
Proof.
  induction s as [|c t IH]; intros [|n]; try reflexivity.
  cbn [findall_from drop]. apply IH.
Qed.

Lemma drop_app : forall u r, drop (String.length u) (u ++ r)%string = r.
Proof. induction u as [|c u IH]; intros r; simpl; [reflexivity|apply IH]. Qed.

Lemma length_app_str : forall a b : string,
  String.length (a ++ b)%string = (String.length a + String.length b)%nat.
Proof. induction a; intros; simpl; [reflexivity|now rewrite IHa]. Qed.

Lemma match_here_nonempty : forall s u,
  match_here s = Some u -> (1 <= String.length u)%nat.
Proof.
  intros s u H.
  destruct (match_here_spec _ _ H) as [(scheme & rest & -> & Hs & _) _].
  destruct Hs as [-> | ->]; simpl; lia.
Qed.

(** After a match the search goes on behind it; where nothing
    matches it moves on by one character. *)
Lemma findall_step :
  (forall u r, match_here (u ++ r)%string = Some u ->
               findall (u ++ r)%string = u :: findall r)
  /\ (forall c t, match_here (String c t) = None ->
                  findall (String c t) = findall t).
Proof.
  split.
  - intros u r H. pose proof (match_here_nonempty _ _ H) as Hl.
    destruct u as [|c u]; [simpl in Hl; lia|].
    unfold findall. simpl append in *. cbn [findall_from]. rewrite H.
    f_equal. rewrite findall_from_drop. simpl String.length.
    replace (S (String.length u) - 1)%nat with (String.length u) by lia.
    now rewrite drop_app.
  - intros c t H. unfold findall. cbn [findall_from]. now rewrite H.
Qed.

(** X4.  The URLs found are pieces of the text, in the order of the
    list and without overlap: the text is a gap, the first URL, a gap,
    the second URL, and so on to a last gap. *)
Theorem findall_in_order_disjoint : forall text,
  exists gaps,
    length gaps = S (length (findall text))
    /\ weave gaps (findall text) = text.
Proof.
  intros text. remember (String.length text) as n eqn:Hn.
  assert (Hle : (String.length text <= n)%nat) by lia. clear Hn.
  revert text Hle. induction n as [|n IH]; intros text Hle.
  - destruct text; [|simpl in Hle; lia]. exists [EmptyString]. split; reflexivity.
  - destruct text as [|c t]; [exists [EmptyString]; split; reflexivity|].
    destruct findall_step as [Hyes Hno].
    destruct (match_here (String c t)) as [u|] eqn:Hm.
    + destruct (match_here_spec _ _ Hm) as [_ [r Hr]].
      pose proof (match_here_nonempty _ _ Hm) as Hl.
      rewrite Hr in Hm. rewrite Hr, (Hyes _ _ Hm).
      assert (Hlen : (String.length r <= n)%nat).
      { assert (String.length (String c t) = String.length (u ++ r)%string)
          by (now rewrite Hr).
        rewrite length_app_str in H. simpl in H, Hle. lia. }
      destruct (IH r Hlen) as (gaps & Hg & Hw).
      exists (EmptyString :: gaps). split; simpl; [now rewrite Hg|now rewrite Hw].
    + rewrite (Hno _ _ Hm). simpl in Hle.
      destruct (IH t ltac:(lia)) as (gaps & Hg & Hw).
      destruct gaps as [|g gs]; [discriminate|].
      exists (String c g :: gs). split; [exact Hg|].
      simpl in *. destruct (findall t); simpl; now rewrite Hw.
Qed.






Lemma items_free_of : forall c0,
  is_url_char c0 = false -> is_hex c0 = false -> Ascii.eqb c0 "%" = false ->
  forall n s, (String.length s <= n)%nat ->
  items is_url_char s = true -> free_of c0 s = true.
Proof.
  intros c0 Hu Hh Hp. induction n as [|n IH]; intros s Hn.
  - destruct s; [reflexivity|simpl in Hn; lia].
  - destruct s as [|c t]; [reflexivity|]. simpl in Hn. cbn [items free_of].
    destruct (Ascii.eqb c c0) eqn:E.
    + apply Ascii.eqb_eq in E. subst c. rewrite Hu.
      rewrite Hp. discriminate.
    + simpl. destruct (is_url_char c); [apply IH; lia|].
      destruct (Ascii.eqb c "%") eqn:Ep; [|discriminate].
      destruct t as [|h1 [|h2 t']]; try discriminate.
      intros H. apply andb_prop in H. destruct H as [H H3].
      apply andb_prop in H. destruct H as [H1 H2].
      simpl in Hn. cbn [free_of].
      destruct (Ascii.eqb h1 c0) eqn:E1;
        [apply Ascii.eqb_eq in E1; subst; congruence|].
      destruct (Ascii.eqb h2 c0) eqn:E2;
        [apply Ascii.eqb_eq in E2; subst; congruence|].
      simpl. apply IH; [lia|assumption].
Qed.

(** X6.  A recognized URL never has a path, a query, a port or a
    fragment: behind [://] it contains no slash, no question mark, no
    colon and no hash sign, so that a submission URL is only ever
    looked for, and found, in the host part. *)
Theorem recognized_url_has_no_path : forall text u,
  In u (findall text) ->
  exists scheme host,
    u = (scheme ++ "://" ++ host)%string
    /\ (scheme = "http" \/ scheme = "https")
    /\ free_of "/" host = true
    /\ free_of "?" host = true
    /\ free_of ":" host = true
    /\ free_of "#" host = true.
Proof.
  intros text u Hin.
  destruct (findall_from_match _ _ _ Hin) as (before & s' & -> & Hm).
  destruct (match_here_spec _ _ Hm) as [(scheme & rest & Hu & Hs & Hne & Hi) _].
  exists scheme, rest. repeat split; try assumption;
    apply (fun c H1 H2 H3 =>
             items_free_of c H1 H2 H3 (String.length rest) rest (le_n _) Hi);
    reflexivity.
Qed.

Lemma recognized_url_has_no_path_example :
  findall "Post to https://example.com:8080/submit?x=1" = ["https://example.com"]
  /\ exists scheme host,
       "https://example.com" = (scheme ++ "://" ++ host)%string
       /\ free_of "/" host = true.
Proof.
  split; [reflexivity|].
  destruct (recognized_url_has_no_path
              "Post to https://example.com:8080/submit?x=1" "https://example.com")
    as (scheme & host & H1 & _ & H3 & _).
  - now left.
  - now exists scheme, host.
Defined.

End MoreReFacts.

(** ** The payload that a page embeds *)

Module Base64Facts.
Import PyStr Table Codec Data Body Stages Props MoreProps RunFacts.

Lemma range_in : forall n x, (x < N.of_nat n)%N -> In x (range n).
Proof.
  intros n x H. unfold range. apply in_map_iff. exists (N.to_nat x).
  split; [apply N2Nat.id|]. apply in_seq. lia.
Qed.

Lemma forall_range : forall (P : N -> bool) n,
  forallb P (range n) = true -> forall x, (x < N.of_nat n)%N -> P x = true.
Proof.
  intros P n H x Hx. rewrite forallb_forall in H. apply H. now apply range_in.
Qed.

Lemma forall_range2 : forall (P : N -> N -> bool) n m,
  forallb (fun x => forallb (P x) (range m)) (range n) = true ->
  forall x y, (x < N.of_nat n)%N -> (y < N.of_nat m)%N -> P x y = true.
Proof.
  intros P n m H x y Hx Hy.
  apply (forall_range (P x) m); [|assumption].
  apply (forall_range (fun x => forallb (P x) (range m)) n); assumption.
Qed.

Lemma code_bound : forall a, (code a < 256)%N.
Proof. intros a. apply N_ascii_bounded. Qed.

Lemma code_inj : forall a, ascii_of_N (code a) = a.
Proof. intros a. apply ascii_N_embedding. Qed.

(** The sixty-four characters of the alphabet. *)
Lemma b64_char_value : forall v, (v < 64)%N ->
  b64_value (b64_char v) = Some v
  /\ Ascii.eqb (b64_char v) "=" = false
  /\ Ascii.eqb (b64_char v) "`" = false
  /\ is_ascii (b64_char v) = true.
Proof.
  intros v Hv.
  pose proof (forall_range
    (fun v => match b64_value (b64_char v) with
              | Some v' => N.eqb v' v
              | None => false
              end
              && negb (Ascii.eqb (b64_char v) "=")
              && negb (Ascii.eqb (b64_char v) "`")
              && is_ascii (b64_char v)) 64 eq_refl v Hv) as H.
  cbv beta in H.
  apply andb_prop in H. destruct H as [H H4].
  apply andb_prop in H. destruct H as [H H3].
  apply andb_prop in H. destruct H as [H1 H2].
  repeat split; try assumption.
  - destruct (b64_value (b64_char v)) as [v'|]; [|discriminate].
    apply N.eqb_eq in H1. now subst.
  - now apply negb_true_iff.
  - now apply negb_true_iff.
Qed.

Lemma bounds : forall a b : ascii,
  (code a / 4 < 64)%N
  /\ ((code a mod 4) * 16 + code b / 16 < 64)%N
  /\ ((code a mod 16) * 4 + code b / 64 < 64)%N
  /\ (code a mod 64 < 64)%N.
Proof.
  intros a b. pose proof (code_bound a). pose proof (code_bound b).
  repeat split.
  - apply N.Div0.div_lt_upper_bound. lia.
  - assert (code a mod 4 < 4)%N by (apply N.mod_lt; lia).
    assert (code b / 16 < 16)%N by (apply N.Div0.div_lt_upper_bound; lia). lia.
  - assert (code a mod 16 < 16)%N by (apply N.mod_lt; lia).
    assert (code b / 64 < 4)%N by (apply N.Div0.div_lt_upper_bound; lia). lia.
  - apply N.mod_lt. lia.
Qed.

(** The three bytes come back from the four values. *)
Lemma first_byte : forall a b : ascii,
  N.lor (N.shiftl (code a / 4) 2)
        (N.shiftr ((code a mod 4) * 16 + code b / 16) 4) = code a.
Proof.
  intros a b. apply N.eqb_eq.
  apply (forall_range2
    (fun x y => N.eqb (N.lor (N.shiftl (x / 4) 2)
                             (N.shiftr ((x mod 4) * 16 + y / 16) 4)) x)
    256 256); [vm_compute; reflexivity | apply code_bound | apply code_bound].
Qed.

Lemma second_byte : forall a b c : ascii,
  N.lor (N.shiftl (N.land ((code a mod 4) * 16 + code b / 16) 15) 4)
        (N.shiftr ((code b mod 16) * 4 + code c / 64) 2) = code b.
Proof.
  intros a b c.
  assert (Ha : (code a mod 4 < 4)%N) by (apply N.mod_lt; lia).
  assert (Hc : (code c / 64 < 4)%N)
    by (apply N.Div0.div_lt_upper_bound; pose proof (code_bound c); lia).
  apply N.eqb_eq.
  pose proof (forall_range2
    (fun y x => forallb (fun z =>
        N.eqb (N.lor (N.shiftl (N.land (x * 16 + y / 16) 15) 4)
                     (N.shiftr ((y mod 16) * 4 + z) 2)) y) (range 4))
    256 4 ltac:(vm_compute; reflexivity) (code b) (code a mod 4)
    (code_bound b) Ha) as H.
  cbv beta in H.
  exact (forall_range _ 4 H (code c / 64) Hc).
Qed.

Lemma third_byte : forall b c : ascii,
  N.lor (N.shiftl (N.land ((code b mod 16) * 4 + code c / 64) 3) 6)
        (code c mod 64) = code c.
Proof.
  intros b c.
  assert (Hb : (code b mod 16 < 16)%N) by (apply N.mod_lt; lia).
  apply N.eqb_eq.
  apply (forall_range2
    (fun x y => N.eqb (N.lor (N.shiftl (N.land (y * 4 + x / 64) 3) 6)
                             (x mod 64)) x)
    256 16); [vm_compute; reflexivity | apply code_bound | exact Hb].
Qed.

Lemma decode_quad : forall a b c rest lc p,
  a2b_base64 0 lc p
    (String (enc1 a) (String (enc2 a b) (String (enc3 b c) (String (enc4 c) rest))))
  = Codec.emit (code a) (Codec.emit (code b) (Codec.emit (code c)
      (a2b_base64 0 0 0 rest))).
Proof.
  intros a b c rest lc p.
  destruct (bounds a b) as (B1 & B2 & _ & _).
  destruct (bounds b c) as (_ & _ & B3 & _).
  destruct (bounds c c) as (_ & _ & _ & B4).
  destruct (b64_char_value _ B1) as (V1 & E1 & _).
  destruct (b64_char_value _ B2) as (V2 & E2 & _).
  destruct (b64_char_value _ B3) as (V3 & E3 & _).
  destruct (b64_char_value _ B4) as (V4 & E4 & _).
  unfold enc1, enc2, enc3, enc4.
  cbn [a2b_base64]. rewrite E1, V1.
  cbn [a2b_base64]. rewrite E2, V2.
  cbn [a2b_base64]. rewrite E3, V3.
  cbn [a2b_base64]. rewrite E4, V4.
  rewrite first_byte, second_byte, third_byte. reflexivity.
Qed.

Lemma decode_two : forall a b lc p,
  a2b_base64 0 lc p
    (String (enc1 a) (String (enc2 a b) (String (enc3 b zero) "=")))
  = Ok (String a (String b EmptyString)).
Proof.
  intros a b lc p.
  destruct (bounds a b) as (B1 & B2 & _ & _).
  destruct (bounds b zero) as (_ & _ & B3 & _).
  destruct (b64_char_value _ B1) as (V1 & E1 & _).
  destruct (b64_char_value _ B2) as (V2 & E2 & _).
  destruct (b64_char_value _ B3) as (V3 & E3 & _).
  unfold enc1, enc2, enc3.
  cbn [a2b_base64]. rewrite E1, V1.
  cbn [a2b_base64]. rewrite E2, V2.
  cbn [a2b_base64]. rewrite E3, V3.
  rewrite first_byte, second_byte. cbn. now rewrite !code_inj.
Qed.

Lemma decode_one : forall a lc p,
  a2b_base64 0 lc p (String (enc1 a) (String (enc2 a zero) "=="))
  = Ok (String a EmptyString).
Proof.
  intros a lc p.
  destruct (bounds a zero) as (B1 & B2 & _ & _).
  destruct (b64_char_value _ B1) as (V1 & E1 & _).
  destruct (b64_char_value _ B2) as (V2 & E2 & _).
  unfold enc1, enc2.
  cbn [a2b_base64]. rewrite E1, V1.
  cbn [a2b_base64]. rewrite E2, V2.
  rewrite first_byte. cbn. now rewrite code_inj.
Qed.

Lemma a2b_encode : forall n bytes, (String.length bytes <= n)%nat ->
  forall lc p, a2b_base64 0 lc p (b64encode bytes) = Ok bytes.
Proof.
  induction n as [|n IH]; intros bytes Hn lc p.
  - destruct bytes; [reflexivity|simpl in Hn; lia].
  - destruct bytes as [|a [|b [|c t]]].
    + reflexivity.
    + apply decode_one.
    + apply decode_two.
    + cbn [b64encode]. rewrite decode_quad.
      simpl in Hn. rewrite (IH t ltac:(lia)).
      cbn. now rewrite !code_inj.
Qed.

Lemma encode_alphabet : forall n bytes, (String.length bytes <= n)%nat ->
  all_ascii (b64encode bytes) = true /\ free_of "`" (b64encode bytes) = true.
Proof.
  induction n as [|n IH]; intros bytes Hn.
  - destruct bytes; [split; reflexivity|simpl in Hn; lia].
  - destruct bytes as [|a [|b [|c t]]]; [split; reflexivity| | |].
    + destruct (bounds a zero) as (B1 & B2 & _ & _).
      destruct (b64_char_value _ B1) as (_ & _ & T1 & A1).
      destruct (b64_char_value _ B2) as (_ & _ & T2 & A2).
      cbn [b64encode all_ascii free_of]. unfold enc1, enc2.
      rewrite A1, A2, T1, T2. split; reflexivity.
    + destruct (bounds a b) as (B1 & B2 & _ & _).
      destruct (bounds b zero) as (_ & _ & B3 & _).
      destruct (b64_char_value _ B1) as (_ & _ & T1 & A1).
      destruct (b64_char_value _ B2) as (_ & _ & T2 & A2).
      destruct (b64_char_value _ B3) as (_ & _ & T3 & A3).
      cbn [b64encode all_ascii free_of]. unfold enc1, enc2, enc3.
      rewrite A1, A2, A3, T1, T2, T3. split; reflexivity.
    + destruct (bounds a b) as (B1 & B2 & _ & _).
      destruct (bounds b c) as (_ & _ & B3 & _).
      destruct (bounds c c) as (_ & _ & _ & B4).
      destruct (b64_char_value _ B1) as (_ & _ & T1 & A1).
      destruct (b64_char_value _ B2) as (_ & _ & T2 & A2).
      destruct (b64_char_value _ B3) as (_ & _ & T3 & A3).
      destruct (b64_char_value _ B4) as (_ & _ & T4 & A4).
      simpl in Hn. destruct (IH t ltac:(lia)) as [HA HF].
      cbn [b64encode all_ascii free_of]. unfold enc1, enc2, enc3, enc4.
      rewrite A1, A2, A3, A4, T1, T2, T3, T4, HA, HF. split; reflexivity.
Qed.

(** Decoding undoes the standard encoding, for every byte string. *)
Lemma b64decode_encode : forall bytes, b64decode (b64encode bytes) = Ok bytes.
Proof.
  intros bytes. unfold b64decode.
  destruct (encode_alphabet _ bytes (le_n _)) as [HA _]. rewrite HA.
  apply (a2b_encode _ bytes (le_n _)).
Qed.

Lemma split_free : forall sep a rest,
  free_of sep a = true ->
  split sep (a ++ String sep rest)%string = a :: split sep rest.
Proof.
  intros sep a rest. induction a as [|c a IH]; simpl; intros H.
  - now rewrite Ascii.eqb_refl.
  - apply andb_prop in H. destruct H as [Hc Ha].
    apply negb_true_iff in Hc. rewrite Hc, (IH Ha). reflexivity.
Qed.

(** X7.  Whatever text a page embeds as standard base64 between the
    first two backticks of the script is what the payload extractor
    returns: for every well-formed UTF-8 text, and whatever surrounds
    the backticks, decoding the script gives the text back and the
    extractor returns it without falling back. *)
Theorem embedded_payload_is_recovered : forall w u s before text after,
  evaluate w u = Ok (before ++ "`" ++ b64encode text ++ "`" ++ after)%string ->
  free_of "`" before = true ->
  utf8_valid text = true ->
  decoded_segment (before ++ "`" ++ b64encode text ++ "`" ++ after)%string
  = Ok text
  /\ extract_payload w u s = (Next text, with_event s (Log INFO MDecoded)).
Proof.
  intros w u s before text after He Hb Hu.
  destruct (encode_alphabet _ text (le_n _)) as [_ HF].
  assert (Hd : decoded_segment
                 (before ++ "`" ++ b64encode text ++ "`" ++ after)%string
               = Ok text).
  { unfold decoded_segment.
    change (before ++ "`" ++ b64encode text ++ "`" ++ after)%string
      with (before ++ String "`" (b64encode text ++ String "`" after))%string.
    rewrite (split_free _ _ _ Hb), (split_free _ _ _ HF).
    cbn [getitem nth_error rbind]. rewrite b64decode_encode. cbn [rbind].
    unfold decode_utf8. now rewrite Hu. }
  split; [exact Hd|].
  unfold extract_payload, with_event. run_red. rewrite He.
  unfold decoded_segment, rbind in Hd.
  destruct (getitem (split "`" (before ++ "`" ++ b64encode text ++ "`" ++ after)) 1)
    as [seg|e]; [|discriminate].
  destruct (b64decode seg) as [bytes|e]; [|discriminate].
  destruct (decode_utf8 bytes) as [d|e]; [|discriminate].
  inversion Hd. reflexivity.
Qed.

Lemma embedded_payload_example :
  extract_payload good_world "https://quiz.example.com/q1" init
  = (Next "hello", with_event init (Log INFO MDecoded)).
Proof.
  apply (embedded_payload_is_recovered good_world "https://quiz.example.com/q1"
           init "const d = atob(" "hello" ");").
  - reflexivity.
  - reflexivity.
  - reflexivity.
Defined.

End Base64Facts.

(** ** More about runs of [solve_quiz] *)

Module MoreRunFacts.
Import PyStr Table Codec Re Data Body Stages Props MoreProps RunFacts.

Ltac units := repeat match goal with x : unit |- _ => destruct x end.

Lemma download_source_run : forall v w q, download_source w (run_trace v w q).
Proof.
  intros [] w q; run_exec; unfold download_source; cbn;
    try (repeat split; reflexivity);
    (split; [reflexivity|]); do 3 eexists; repeat split; eassumption.
Qed.

Lemma main_answer_source_run : forall w q,
  main_answer_source w (run_trace Server.main_py w q).
Proof.
  intros w q; run_exec; unfold main_answer_source; cbn; units;
    try reflexivity;
    (split; [reflexivity|]);
    (split; [intros u' p' Hp; try discriminate; inversion Hp; reflexivity|]);
    do 5 eexists; repeat split; try eassumption; reflexivity.
Qed.

Lemma index_answer_source_run : forall w q,
  index_answer_source w (run_trace Server.index_py w q).
Proof.
  intros w q; run_exec; unfold index_answer_source; cbn; units;
    try reflexivity;
    (split; [reflexivity|]);
    (split; [intros u' p' Hp; try discriminate; inversion Hp; reflexivity|]);
    do 6 eexists; repeat split; try eassumption; try reflexivity.
Qed.

Lemma chain_source_run : forall v w q, chain_source w q (final_state v w q).
Proof.
  intros [] w q; unfold final_state; run_exec; unfold chain_source; cbn; units;
    try exact I;
    do 7 eexists; repeat split; try eassumption; reflexivity.
Qed.

Lemma incorrect_source_run : forall v w q, incorrect_source w (final_state v w q).
Proof.
  intros [] w q; unfold final_state; run_exec; unfold incorrect_source; cbn; units;
    try exact I;
    (split; [reflexivity|]); (split; [reflexivity|]); (split; [reflexivity|]);
    do 5 eexists; repeat split; try eassumption; try reflexivity;
    first [left; eassumption | right; split; [eassumption|reflexivity]].
Qed.

Lemma submit_failure_source_run : forall v w q,
  submit_failure_source (final_state v w q).
Proof.
  intros [] w q; unfold final_state; run_exec; unfold submit_failure_source;
    cbn; try exact I;
    (split; [reflexivity|]); (split; [assumption|]); (split; [reflexivity|]);
    (split; [reflexivity|]); eexists; reflexivity.
Qed.

Lemma main_file_source_run : forall w q,
  main_file_source w (run_trace Server.main_py w q).
Proof.
  intros w q; run_exec; unfold main_file_source; cbn; units;
    try exact I;
    (split; [reflexivity|]); (split; [reflexivity|]);
    do 2 eexists; repeat split; try eassumption; reflexivity.
Qed.

Lemma index_no_file_run : forall w q, files (run_trace Server.index_py w q) = [].
Proof. intros w q; run_exec; reflexivity. Qed.

(** *** Lists of events, continued *)

Lemma gets_in : forall tr l, In (HttpGet l) tr <-> In l (gets tr).
Proof.
  intros tr l. unfold gets. rewrite in_flat_map. split.
  - intros H. exists (HttpGet l). split; [assumption|now left].
  - intros (e & He & Hl). destruct e; simpl in Hl; try contradiction.
    destruct Hl as [-> | []]. exact He.
Qed.

Lemma files_in : forall tr n, In (FileWritten n) tr <-> In n (files tr).
Proof.
  intros tr n. unfold files. rewrite in_flat_map. split.
  - intros H. exists (FileWritten n). split; [assumption|now left].
  - intros (e & He & Hl). destruct e; simpl in Hl; try contradiction.
    destruct Hl as [-> | []]. exact He.
Qed.

Lemma count_gets : forall tr, count is_get tr = length (gets tr).
Proof.
  induction tr as [|e tr IH]; [reflexivity|].
  rewrite count_cons. unfold gets in *. simpl. rewrite length_app, <- IH.
  destruct e; reflexivity.
Qed.

Lemma count_files : forall tr, count is_file tr = length (files tr).
Proof.
  induction tr as [|e tr IH]; [reflexivity|].
  rewrite count_cons. unfold files in *. simpl. rewrite length_app, <- IH.
  destruct e; reflexivity.
Qed.

Lemma first_post_none : forall tr, first_post tr = None -> count is_post tr = O.
Proof.
  induction tr as [|e tr IH]; [reflexivity|].
  rewrite count_cons. destruct e; simpl; try exact IH. discriminate.
Qed.

Lemma first_post_in : forall tr u p,
  first_post tr = Some (u, p) -> In (HttpPost u p) tr.
Proof.
  intros tr u p H. rewrite (first_post_split _ _ _ H).
  apply in_or_app. right. now left.
Qed.

Lemma incorrect_in : forall tr r,
  In (Log WARNING (MIncorrect r)) tr -> In r (incorrect_reasons tr).
Proof.
  intros tr r H. unfold incorrect_reasons. apply in_flat_map.
  exists (Log WARNING (MIncorrect r)). split; [assumption|now left].
Qed.

Lemma submit_failure_in : forall tr u e,
  In (Log ERROR (MSubmitFailed u e)) tr -> In (u, e) (submit_failures tr).
Proof.
  intros tr u e H. unfold submit_failures. apply in_flat_map.
  exists (Log ERROR (MSubmitFailed u e)). split; [assumption|now left].
Qed.

Lemma json_get_object : forall j k c,
  json_get j k = Ok c -> exists members, j = JObj members /\ c = lookup k members.
Proof.
  intros j k c H. destruct j; try discriminate. inversion H. eauto.
Qed.

Lemma mkQuizRequest_ok : forall e s v nq,
  mkQuizRequest e s v = Ok nq ->
  exists u, v = JStr u /\ nq = {| email := e; secret := s; url := u |}.
Proof.
  intros e s v nq H. destruct v; try discriminate. inversion H. eauto.
Qed.

Lemma getitem_nth_error : forall A (l : list A) i x,
  getitem l i = Ok x -> nth_error l i = Some x.
Proof.
  intros A l i x. unfold getitem.
  destruct (nth_error l i); intros H; inversion H; reflexivity.
Qed.

(** *** Navigation *)

(** X8.  When playwright has started and the launch, the new page or
    the navigation raises, the run consists of exactly this: the
    failure is logged as an error, playwright is stopped, and the
    browser is closed if it had been launched; the page is not
    evaluated or parsed and nothing is downloaded or submitted. *)
Theorem navigation_failure_ends_run : forall v w q e,
  playwright_start w = Ok tt ->
  rbind (chromium_launch w)
        (fun _ => rbind (new_page w) (fun _ => goto w (url q))) = Raise e ->
  run_trace v w q
  = [Log INFO (MReceived (url q)); PlaywrightStarted]
    ++ match chromium_launch w with
       | Ok _ => [BrowserLaunched]
       | Raise _ => []
       end
    ++ [Log ERROR (MNavigationFailed (url q) e); PlaywrightStopped]
    ++ match chromium_launch w with
       | Ok _ => [BrowserClosed; Log INFO MBrowserClosed]
       | Raise _ => []
       end.
Proof.
  intros v w q e Hp Hn.
  destruct v; unfold run_trace, Server.solve_quiz, Main.solve_quiz,
    Index.solve_quiz, solve_quiz_body, pipeline, async_with_playwright, navigate;
    run_red; rewrite Hp; run_red;
    destruct (chromium_launch w) as [[]|e1]; simpl in Hn;
    try (inversion Hn; subst; reflexivity);
    run_red; destruct (new_page w) as [[]|e2]; simpl in Hn;
    try (inversion Hn; subst; reflexivity);
    run_red; rewrite Hn; reflexivity.
Qed.

Lemma navigation_failure_example :
  run_trace Server.main_py unreachable_world sample_request
  = [Log INFO (MReceived "https://quiz.example.com/q1"); PlaywrightStarted;
     BrowserLaunched;
     Log ERROR (MNavigationFailed "https://quiz.example.com/q1" PlaywrightError);
     PlaywrightStopped; BrowserClosed; Log INFO MBrowserClosed].
Proof.
  apply (navigation_failure_ends_run Server.main_py unreachable_world
           sample_request PlaywrightError); reflexivity.
Defined.

(** *** Download *)

(** X9.  A run downloads at most once, and only the [href] of the
    first anchor of a parsed page, which is not empty, and only when
    the text of that page contains the marker phrase. *)
Theorem download_only_for_marked_quiz : forall v w q,
  (count is_get (run_trace v w q) <= 1)%nat
  /\ forall link, In (HttpGet link) (run_trace v w q) ->
       exists d soup tag,
         BeautifulSoup w d = Ok soup
         /\ find_a soup = Some tag
         /\ lookup "href" (attrs tag) = Some link
         /\ contains marker (get_text soup) = true
         /\ link <> EmptyString.
Proof.
  intros v w q. pose proof (download_source_run v w q) as H.
  unfold download_source in H. rewrite count_gets. split.
  - destruct (gets (run_trace v w q)) as [|l more]; [simpl; lia|].
    destruct H as [-> _]. simpl. lia.
  - intros link Hin. apply gets_in in Hin.
    destruct (gets (run_trace v w q)) as [|l more]; [contradiction|].
    destruct H as (-> & d & soup & tag & H1 & H2 & H3 & H4).
    destruct Hin as [<- | []]. apply andb_prop in H4. destruct H4 as [H4 H5].
    exists d, soup, tag. repeat split; try assumption.
    intros ->. discriminate.
Qed.

Lemma download_example :
  exists d soup tag,
    BeautifulSoup good_world d = Ok soup
    /\ find_a soup = Some tag
    /\ lookup "href" (attrs tag) = Some "https://x/data.pdf"
    /\ contains marker (get_text soup) = true.
Proof.
  destruct (download_only_for_marked_quiz Server.index_py good_world
              sample_request) as [_ H].
  destruct (H "https://x/data.pdf") as (d & soup & tag & H1 & H2 & H3 & H4 & _).
  - vm_compute. repeat (first [left; reflexivity | right]).
  - exists d, soup, tag. auto.
Defined.

(** X10.  When the text of the page does not contain the marker phrase
    the quiz is not recognized: nothing is downloaded, written,
    computed or submitted. *)
Theorem unrecognized_quiz_does_nothing : forall v w q,
  (forall d soup, BeautifulSoup w d = Ok soup ->
                  contains marker (get_text soup) = false) ->
  gets (run_trace v w q) = []
  /\ files (run_trace v w q) = []
  /\ computed_sums (run_trace v w q) = []
  /\ count is_post (run_trace v w q) = O.
Proof.
  intros v w q Hw. pose proof (download_source_run v w q) as H.
  unfold download_source in H.
  destruct (gets (run_trace v w q)) as [|l more].
  - destruct H as (H1 & H2 & H3). repeat split; try assumption.
    now apply first_post_none.
  - destruct H as (_ & d & soup & tag & H1 & _ & _ & H4).
    apply andb_prop in H4. destruct H4 as [H4 _].
    rewrite (Hw _ _ H1) in H4. discriminate.
Qed.

Lemma unrecognized_quiz_example :
  let tr := run_trace Server.main_py
              (sample_world soup_without_marker correct_with_url)
              sample_request in
  gets tr = [] /\ files tr = [] /\ computed_sums tr = []
  /\ count is_post tr = O
  /\ In (Log WARNING MNotRecognized) tr.
Proof.
  destruct (unrecognized_quiz_does_nothing Server.main_py
              (sample_world soup_without_marker correct_with_url)
              sample_request) as (H1 & H2 & H3 & H4).
  - intros d soup H. inversion H. reflexivity.
  - repeat split; try assumption.
    vm_compute. repeat (first [left; reflexivity | right]).
Defined.

(** *** The answer *)

(** X11.  The answer that a run submits is the sum computed from the
    table on the second page of the PDF that the run downloaded: in
    [main.py] the table that [extract_table] returns for the page, in
    [api/index.py] the first of the tables that [find_tables] finds. *)
Theorem posted_answer_is_sum_of_second_page :
  (forall w q u p, In (HttpPost u p) (run_trace Server.main_py w q) ->
     exists link resp pages page t,
       In (HttpGet link) (run_trace Server.main_py w q)
       /\ requests_get w link = Ok resp
       /\ pdfplumber_open w (content resp) = Ok pages
       /\ nth_error pages 1 = Some page
       /\ extract_table page = Ok (Some t)
       /\ MainTable.table_answer t = Ok (p_answer p))
  /\ (forall w q u p, In (HttpPost u p) (run_trace Server.index_py w q) ->
     exists link resp pages page finder t,
       In (HttpGet link) (run_trace Server.index_py w q)
       /\ requests_get w link = Ok resp
       /\ fitz_open w (content resp) = Ok pages
       /\ nth_error pages 1 = Some page
       /\ find_tables page = Ok finder
       /\ nth_error (finder_tables finder) 0 = Some (Ok t)
       /\ IndexTable.table_answer t = IndexTable.Answer (p_answer p)).
Proof.
  split; intros w q u p Hin.
  - destruct (post_ok_run Server.main_py w q) as [Hc _].
    pose proof (in_post_first _ _ _ Hc Hin) as Hf.
    pose proof (main_answer_source_run w q) as H. unfold main_answer_source in H.
    destruct (computed_sums (run_trace Server.main_py w q)) as [|a more];
      [congruence|].
    destruct H as (_ & Ha & link & resp & pages & page & t
                   & H1 & H2 & _ & _ & H5 & _ & H7 & H8 & H9).
    rewrite (Ha _ _ Hf).
    exists link, resp, pages, page, t. repeat split; auto.
    + apply gets_in. rewrite H1. now left.
    + now apply getitem_nth_error.
  - destruct (post_ok_run Server.index_py w q) as [Hc _].
    pose proof (in_post_first _ _ _ Hc Hin) as Hf.
    pose proof (index_answer_source_run w q) as H. unfold index_answer_source in H.
    destruct (computed_sums (run_trace Server.index_py w q)) as [|a more];
      [congruence|].
    destruct H as (_ & Ha & link & resp & pages & page & finder & t
                   & H1 & H2 & _ & H4 & _ & H6 & H7 & _ & H9 & H10).
    rewrite (Ha _ _ Hf).
    exists link, resp, pages, page, finder, t. repeat split; auto.
    + apply gets_in. rewrite H1. now left.
    + now apply getitem_nth_error.
    + now apply getitem_nth_error.
Qed.

Lemma posted_answer_example :
  exists link resp pages page t,
    requests_get good_world link = Ok resp
    /\ pdfplumber_open good_world (content resp) = Ok pages
    /\ nth_error pages 1 = Some page
    /\ extract_table page = Ok (Some t)
    /\ MainTable.table_answer t = Ok (PyFloat f15_5).
Proof.
  destruct posted_answer_is_sum_of_second_page as [H _].
  destruct (H good_world sample_request "https://submit.example.com"
              (payload_of sample_request (PyFloat f15_5)))
    as (link & resp & pages & page & t & _ & H2 & H3 & H4 & H5 & H6).
  - vm_compute. repeat (first [left; reflexivity | right]).
  - exists link, resp, pages, page, t. auto.
Defined.

(** X12.  When the PDF has fewer than two pages no table is looked up:
    no sum is computed and nothing is submitted. *)
Theorem short_pdf_gives_no_answer : forall v w q,
  (forall c pages, pdfplumber_open w c = Ok pages -> (length pages < 2)%nat) ->
  (forall c pages, fitz_open w c = Ok pages -> (length pages < 2)%nat) ->
  computed_sums (run_trace v w q) = []
  /\ count is_post (run_trace v w q) = O.
Proof.
  intros v w q Hp Hf.
  assert (H : computed_sums (run_trace v w q) = []
              /\ first_post (run_trace v w q) = None).
  { destruct v.
    - pose proof (main_answer_source_run w q) as H. unfold main_answer_source in H.
      destruct (computed_sums (run_trace Server.main_py w q)) as [|a more];
        [auto|].
      destruct H as (_ & _ & link & resp & pages & page & t
                     & _ & _ & _ & _ & H5 & H6 & _).
      specialize (Hp _ _ H5). apply Nat.ltb_ge in H6. lia.
    - pose proof (index_answer_source_run w q) as H. unfold index_answer_source in H.
      destruct (computed_sums (run_trace Server.index_py w q)) as [|a more];
        [auto|].
      destruct H as (_ & _ & link & resp & pages & page & finder & t
                     & _ & _ & _ & H4 & H5 & _).
      specialize (Hf _ _ H4). apply Nat.ltb_ge in H5. lia. }
  destruct H as [H1 H2]. split; [exact H1|now apply first_post_none].
Qed.

Lemma short_pdf_example :
  let tr := run_trace Server.index_py one_page_world sample_request in
  computed_sums tr = [] /\ count is_post tr = O /\ In (Log ERROR MFewPages) tr.
Proof.
  destruct (short_pdf_gives_no_answer Server.index_py one_page_world
              sample_request) as (H1 & H2).
  - intros c pages H. inversion H. simpl. lia.
  - intros c pages H. inversion H. simpl. lia.
  - repeat split; try assumption.
    vm_compute. repeat (first [left; reflexivity | right]).
Defined.

(** X13.  When the second page of the PDF has no table
    ([extract_table] returns [None], the [TableFinder] is falsy) no sum
    is computed and nothing is submitted. *)
Theorem missing_table_gives_no_answer : forall v w q,
  (forall c pages page,
     pdfplumber_open w c = Ok pages -> nth_error pages 1 = Some page ->
     extract_table page = Ok None) ->
  (forall c pages page finder,
     fitz_open w c = Ok pages -> nth_error pages 1 = Some page ->
     find_tables page = Ok finder -> finder_truthy finder = false) ->
  computed_sums (run_trace v w q) = []
  /\ count is_post (run_trace v w q) = O.
Proof.
  intros v w q Hp Hf.
  assert (H : computed_sums (run_trace v w q) = []
              /\ first_post (run_trace v w q) = None).
  { destruct v.
    - pose proof (main_answer_source_run w q) as H. unfold main_answer_source in H.
      destruct (computed_sums (run_trace Server.main_py w q)) as [|a more];
        [auto|].
      destruct H as (_ & _ & link & resp & pages & page & t
                     & _ & _ & _ & _ & H5 & _ & H7 & H8 & _).
      apply getitem_nth_error in H7. rewrite (Hp _ _ _ H5 H7) in H8.
      discriminate.
    - pose proof (index_answer_source_run w q) as H. unfold index_answer_source in H.
      destruct (computed_sums (run_trace Server.index_py w q)) as [|a more];
        [auto|].
      destruct H as (_ & _ & link & resp & pages & page & finder & t
                     & _ & _ & _ & H4 & _ & H6 & H7 & H8 & _).
      apply getitem_nth_error in H6. rewrite (Hf _ _ _ _ H4 H6 H7) in H8.
      discriminate. }
  destruct H as [H1 H2]. split; [exact H1|now apply first_post_none].
Qed.

Lemma missing_table_example :
  let tr := run_trace Server.main_py no_table_world sample_request in
  computed_sums tr = [] /\ count is_post tr = O /\ In (Log WARNING MNoTable) tr.
Proof.
  destruct (missing_table_gives_no_answer Server.main_py no_table_world
              sample_request) as (H1 & H2).
  - intros c pages page H Hn. inversion H; subst. inversion Hn. reflexivity.
  - intros c pages page finder H Hn Hf. inversion H; subst. inversion Hn; subst.
    inversion Hf. reflexivity.
  - repeat split; try assumption.
    vm_compute. repeat (first [left; reflexivity | right]).
Defined.

(** X14.  When the download is answered with a status from 400 to 599
    the run ends there: no file is written, no sum is computed and
    nothing is submitted. *)
Theorem failed_download_gives_no_answer : forall v w q,
  (forall link resp, requests_get w link = Ok resp ->
                     (400 <= status_code resp < 600)%Z) ->
  files (run_trace v w q) = []
  /\ computed_sums (run_trace v w q) = []
  /\ count is_post (run_trace v w q) = O.
Proof.
  intros v w q Hw.
  assert (Hbad : forall link resp, requests_get w link = Ok resp ->
                                   raise_for_status resp = Ok tt -> False).
  { intros link resp H1 H2. specialize (Hw _ _ H1). unfold raise_for_status in H2.
    replace ((400 <=? status_code resp) && (status_code resp <? 600))%Z
      with true in H2; [discriminate|].
    symmetry. apply andb_true_intro. split; [apply Z.leb_le|apply Z.ltb_lt]; lia. }
  assert (H : computed_sums (run_trace v w q) = []
              /\ first_post (run_trace v w q) = None).
  { destruct v.
    - pose proof (main_answer_source_run w q) as H. unfold main_answer_source in H.
      destruct (computed_sums (run_trace Server.main_py w q)) as [|a more];
        [auto|].
      destruct H as (_ & _ & link & resp & pages & page & t & _ & H2 & H3 & _).
      destruct (Hbad _ _ H2 H3).
    - pose proof (index_answer_source_run w q) as H. unfold index_answer_source in H.
      destruct (computed_sums (run_trace Server.index_py w q)) as [|a more];
        [auto|].
      destruct H as (_ & _ & link & resp & pages & page & finder & t
                     & _ & H2 & H3 & _).
      destruct (Hbad _ _ H2 H3). }
  destruct H as [H1 H2]. repeat split; [|exact H1|now apply first_post_none].
  destruct v.
  - pose proof (main_file_source_run w q) as H. unfold main_file_source in H.
    destruct (files (run_trace Server.main_py w q)) as [|n more]; [reflexivity|].
    destruct H as (_ & _ & link & resp & _ & H3 & H4 & _).
    destruct (Hbad _ _ H3 H4).
  - apply index_no_file_run.
Qed.

Lemma failed_download_example :
  let tr := run_trace Server.main_py not_found_world sample_request in
  files tr = [] /\ computed_sums tr = [] /\ count is_post tr = O
  /\ In (Log ERROR (MDownloadFailed HTTPError)) tr.
Proof.
  destruct (failed_download_gives_no_answer Server.main_py not_found_world
              sample_request) as (H1 & H2 & H3).
  - intros link resp H. inversion H. simpl. lia.
  - repeat split; try assumption.
    vm_compute. repeat (first [left; reflexivity | right]).
Defined.

(** *** Submission *)

(** X15.  A follow-up request is put on the local task list only after
    a submission whose response is a JSON object with a truthy
    [correct] and a non-empty string [url]; it is the only task, and it
    carries the email and the secret of the request being run and that
    [url]. *)
Theorem chained_request_keeps_identity : forall v w q bt,
  background_tasks (final_state v w q) = Some bt ->
  exists u p resp members next,
    In (HttpPost u p) (run_trace v w q)
    /\ requests_post w u p = Ok resp
    /\ json_body resp = Ok (JObj members)
    /\ option_truthy (lookup "correct" members) = true
    /\ lookup "url" members = Some (JStr next)
    /\ next <> EmptyString
    /\ tasks bt = [{| email := email q; secret := secret q; url := next |}].
Proof.
  intros v w q bt Hbt. pose proof (chain_source_run v w q) as H.
  unfold chain_source in H. rewrite Hbt in H.
  destruct H as (u & p & resp & j & c & x & nq
                 & H1 & H2 & _ & H4 & H5 & H6 & H7 & H8 & H9 & H10).
  destruct (json_get_object _ _ _ H5) as (members & -> & ->).
  destruct (mkQuizRequest_ok _ _ _ _ H9) as (next & -> & ->).
  simpl in H7. inversion H7 as [H7'].
  exists u, p, resp, members, next. repeat split; auto.
  - now apply first_post_in.
  - intros ->. discriminate.
Qed.

Lemma chained_request_example :
  exists u p resp members next,
    In (HttpPost u p) (run_trace Server.main_py good_world sample_request)
    /\ requests_post good_world u p = Ok resp
    /\ json_body resp = Ok (JObj members)
    /\ option_truthy (lookup "correct" members) = true
    /\ lookup "url" members = Some (JStr next)
    /\ next <> EmptyString
    /\ tasks {| tasks := [chained_request] |}
       = [{| email := "a@b.c"; secret := "s3"; url := next |}].
Proof.
  apply (chained_request_keeps_identity Server.main_py good_world
           sample_request {| tasks := [chained_request] |}).
  reflexivity.
Defined.

(** X16.  When a run reports an incorrect answer it has submitted
    exactly once, the response was a JSON object whose [correct] is
    absent or falsy, the reason reported is the [reason] of the response
    or the default text when there is none, and no follow-up request is
    created. *)
Theorem incorrect_answer_ends_series : forall v w q r,
  In (Log WARNING (MIncorrect r)) (run_trace v w q) ->
  background_tasks (final_state v w q) = None
  /\ count is_post (run_trace v w q) = 1%nat
  /\ exists u p resp members,
       In (HttpPost u p) (run_trace v w q)
       /\ requests_post w u p = Ok resp
       /\ json_body resp = Ok (JObj members)
       /\ option_truthy (lookup "correct" members) = false
       /\ r = match lookup "reason" members with
              | Some x => x
              | None => JStr "No reason provided."
              end.
Proof.
  intros v w q r Hin. apply incorrect_in in Hin.
  pose proof (incorrect_source_run v w q) as H. unfold incorrect_source in H.
  change (trace (final_state v w q)) with (run_trace v w q) in H.
  destruct (incorrect_reasons (run_trace v w q)) as [|r0 more]; [contradiction|].
  destruct H as (-> & Hb & Hc & u & p & resp & j & c
                 & H1 & H2 & H3 & H4 & H5 & H6).
  destruct Hin as [<- | []].
  destruct (json_get_object _ _ _ H4) as (members & -> & ->).
  repeat split; try assumption.
  exists u, p, resp, members. repeat split; auto.
  - now apply first_post_in.
  - simpl in H6. destruct H6 as [H6 | [H6 ->]]; inversion H6 as [H6'];
      now rewrite H6'.
Qed.

Lemma incorrect_answer_example :
  let w := sample_world quiz_soup incorrect_with_reason in
  In (Log WARNING (MIncorrect (JStr "wrong")))
     (run_trace Server.index_py w sample_request)
  /\ background_tasks (final_state Server.index_py w sample_request) = None
  /\ count is_post (run_trace Server.index_py w sample_request) = 1%nat.
Proof.
  assert (H : In (Log WARNING (MIncorrect (JStr "wrong")))
                 (run_trace Server.index_py
                    (sample_world quiz_soup incorrect_with_reason)
                    sample_request)).
  { vm_compute. repeat (first [left; reflexivity | right]). }
  split; [exact H|].
  destruct (incorrect_answer_ends_series Server.index_py
              (sample_world quiz_soup incorrect_with_reason)
              sample_request (JStr "wrong") H) as (H1 & H2 & _).
  split; assumption.
Defined.

(** X17.  When a run reports that the submission to a URL failed, the
    failure was a [RequestException], the run had sent exactly one
    request, to that URL, and it neither sends another nor creates a
    follow-up request. *)
Theorem failed_submission_is_not_retried : forall v w q u e,
  In (Log ERROR (MSubmitFailed u e)) (run_trace v w q) ->
  isinstance e RequestException = true
  /\ background_tasks (final_state v w q) = None
  /\ count is_post (run_trace v w q) = 1%nat
  /\ exists p, In (HttpPost u p) (run_trace v w q).
Proof.
  intros v w q u e Hin. apply submit_failure_in in Hin.
  pose proof (submit_failure_source_run v w q) as H.
  unfold submit_failure_source in H.
  change (trace (final_state v w q)) with (run_trace v w q) in H.
  destruct (submit_failures (run_trace v w q)) as [|[u0 e0] more];
    [contradiction|].
  destruct H as (-> & H1 & H2 & H3 & p & H4).
  destruct Hin as [Hin | []]. inversion Hin; subst.
  repeat split; try assumption.
  exists p. now apply first_post_in.
Qed.

Lemma failed_submission_example :
  let tr := run_trace Server.main_py post_down_world sample_request in
  In (Log ERROR (MSubmitFailed "https://submit.example.com" RequestException)) tr
  /\ count is_post tr = 1%nat
  /\ background_tasks (final_state Server.main_py post_down_world sample_request)
     = None.
Proof.
  assert (H : In (Log ERROR (MSubmitFailed "https://submit.example.com"
                               RequestException))
                 (run_trace Server.main_py post_down_world sample_request)).
  { vm_compute. repeat (first [left; reflexivity | right]). }
  split; [exact H|].
  destruct (failed_submission_is_not_retried Server.main_py post_down_world
              sample_request _ _ H) as (_ & H2 & H3 & _).
  split; assumption.
Defined.

(** X18.  When the submission is answered with JSON that is not an
    object, [response_json.get] raises [AttributeError]: the submission
    stage logs the response and leaves with that exception, which
    neither of its handlers catches, without any further message. *)
Theorem non_object_response_is_unexpected : forall w q u a s resp j,
  requests_post w u (payload_of q a) = Ok resp ->
  raise_for_status resp = Ok tt ->
  json_body resp = Ok j ->
  (forall members, j <> JObj members) ->
  submit_answer w q u (Some a) s
  = (Throw AttributeError,
     {| browser := browser s;
        background_tasks := background_tasks s;
        trace := trace s ++ [Log INFO (MSubmitting (payload_of q a));
                             HttpPost u (payload_of q a);
                             Log INFO (MResponse j)] |}).
Proof.
  intros w q u a [b bt tr] resp j Hp Hs Hj Hno.
  unfold submit_answer, interpret. fold (payload_of q a). stage_red.
  rewrite Hp. stage_red. rewrite Hs. stage_red. rewrite Hj. stage_red.
  destruct j; try (simpl; rewrite <- !app_assoc; reflexivity).
  destruct (Hno members eq_refl).
Qed.

Lemma non_object_response_example :
  fst (submit_answer (sample_world quiz_soup (JArr [])) sample_request
         "https://submit.example.com" (Some (PyFloat f15_5)) init)
  = Throw AttributeError.
Proof.
  erewrite (non_object_response_is_unexpected
              (sample_world quiz_soup (JArr [])) sample_request
              "https://submit.example.com" (PyFloat f15_5) init _ (JArr [])).
  - reflexivity.
  - reflexivity.
  - reflexivity.
  - reflexivity.
  - intros members. discriminate.
Defined.

(** *** Files and the browser *)

(** X19.  [api/index.py] writes no file.  [main.py] writes at most one,
    named [data.pdf], and only the content of a download that was
    answered with a status below 400 or from 600. *)
Theorem only_main_writes_data_pdf : forall w q,
  (forall n, ~ In (FileWritten n) (run_trace Server.index_py w q))
  /\ (count is_file (run_trace Server.main_py w q) <= 1)%nat
  /\ (forall n, In (FileWritten n) (run_trace Server.main_py w q) ->
        n = "data.pdf"
        /\ exists link resp,
             In (HttpGet link) (run_trace Server.main_py w q)
             /\ requests_get w link = Ok resp
             /\ raise_for_status resp = Ok tt
             /\ write_file w "data.pdf" (content resp) = Ok tt).
Proof.
  intros w q. pose proof (main_file_source_run w q) as H.
  unfold main_file_source in H. split; [|split].
  - intros n Hin. apply files_in in Hin. now rewrite index_no_file_run in Hin.
  - rewrite count_files.
    destruct (files (run_trace Server.main_py w q)) as [|n more]; [simpl; lia|].
    destruct H as (_ & -> & _). simpl. lia.
  - intros n Hin. apply files_in in Hin.
    destruct (files (run_trace Server.main_py w q)) as [|n0 more]; [contradiction|].
    destruct H as (-> & -> & link & resp & H1 & H2 & H3 & H4).
    destruct Hin as [<- | []]. split; [reflexivity|].
    exists link, resp. repeat split; auto. apply gets_in. rewrite H1. now left.
Qed.

Lemma data_pdf_example :
  exists link resp,
    In (HttpGet link) (run_trace Server.main_py good_world sample_request)
    /\ requests_get good_world link = Ok resp
    /\ raise_for_status resp = Ok tt.
Proof.
  destruct (only_main_writes_data_pdf good_world sample_request) as (_ & _ & H).
  destruct (H "data.pdf") as (_ & link & resp & H1 & H2 & H3 & _).
  - vm_compute. repeat (first [left; reflexivity | right]).
  - exists link, resp. exact (conj H1 (conj H2 H3)).
Defined.

(** X20.  In every run playwright is started at most once and stopped
    as often as it is started; the browser is launched only while
    playwright is running and closed only after playwright has stopped;
    and once playwright has stopped the run downloads, writes, submits
    and launches nothing. *)
Theorem playwright_stops_before_browser_closes : forall v w q,
  let tr := run_trace v w q in
  count is_start tr = count is_stop tr
  /\ (count is_start tr <= 1)%nat
  /\ (existsb is_launch tr = true ->
      existsb is_start (before is_launch tr) = true
      /\ existsb is_stop (before is_launch tr) = false)
  /\ (existsb is_close tr = true ->
      existsb is_stop (before is_close tr) = true)
  /\ existsb (fun e => is_get e || is_post e || is_file e || is_launch e)
             (after is_stop tr) = false.
Proof.
  intros v w q tr. subst tr.
  destruct v; run_exec; cbn; repeat split; auto; discriminate.
Qed.

Lemma playwright_example :
  existsb is_stop
    (before is_close (run_trace Server.main_py good_world sample_request))
  = true.
Proof.
  destruct (playwright_stops_before_browser_closes Server.main_py good_world
              sample_request) as (_ & _ & _ & H & _).
  apply H. reflexivity.
Defined.

(** *** The endpoint *)



End MoreRunFacts.
